(** * MenstruationTracker: the cycle-length prediction pipeline

    A shallow embedding of [Tracker/ml/model.py], [Tracker/ml/data_loader.py],
    [Tracker/forecast_service.py], [Tracker/models.py] and the cycle views of
    [Tracker/views.py], with the properties of the prediction pipeline stated
    and proved over it.

    Conventions of the embedding.
    - Python numbers (int, float, numpy.float64) are exact rationals [Q]; the
      rounding error of binary floating point is not modelled.  Equality of
      numbers is [Qeq] ([==]).
    - [numpy.sqrt] is not rational: it is a parameter [np_sqrt] of the
      development, about which nothing is assumed.
    - The fitted regressor is opaque: a total function from the feature row
      to a number.
    - The joblib file at [get_model_path()] is a cell holding [None] (no
      file) or the dumped dictionary.
    - Dates are day numbers in [Z]; a [timedelta] is a number of days.
    - Exceptions are values of [exn]; a computation that can raise returns a
      [result]. *)

From Stdlib Require Import QArith Qround Qabs Lqa.
From stdpp Require Import gmap strings list.
From stdpp Require Import sorting.

(** ** Python and numpy numerics *)

Module Py.

Local Open Scope Q_scope.

(** [max(a, b)] and [min(a, b)] of the builtins: the first argument wins a
    tie. *)
Definition max (a b : Q) : Q := if Qlt_le_dec a b then b else a.
Definition min (a b : Q) : Q := if Qlt_le_dec b a then b else a.

(** Round half to even, the rounding of [round] and of [numpy.rint]. *)
Definition rint (q : Q) : Z :=
  let f := Qfloor q in
  match Qcompare (q - inject_Z f) (1 # 2) with
  | Lt => f
  | Gt => (f + 1)%Z
  | Eq => if Z.even f then f else (f + 1)%Z
  end.

Definition pow10 (ndigits : nat) : Q := inject_Z (10 ^ Z.of_nat ndigits).

(** [round(x, ndigits)] *)
Definition round (x : Q) (ndigits : nat) : Q :=
  inject_Z (rint (x * pow10 ndigits)) / pow10 ndigits.

(** [int(x)]: truncation towards zero. *)
Definition int (x : Q) : Z :=
  if Qlt_le_dec x 0 then Qceiling x else Qfloor x.

(** [sum(l)] *)
Definition sum (l : list Q) : Q := foldr Qplus 0 l.

(** [numpy.mean(l)]; on the empty list numpy answers nan, no call site below
    reaches it. *)
Definition mean (l : list Q) : Q := sum l / inject_Z (Z.of_nat (length l)).

Section Sqrt.
Variable np_sqrt : Q -> Q.

(** [numpy.std(l)], with its default [ddof=0]: the population standard
    deviation [sqrt(mean(abs(x - x.mean())**2))]. *)
Definition std (l : list Q) : Q :=
  np_sqrt (mean (map (fun x => (x - mean l) * (x - mean l)) l)).
End Sqrt.

(** [l[-k]] for [1 <= k <= len(l)], and the slice [l[-n:]]. *)
Definition index_neg (l : list Q) (k : nat) : Q :=
  default 0 (l !! (length l - k)%nat).
Definition slice_last (n : nat) (l : list Q) : list Q :=
  drop (length l - n) l.

End Py.

(** ** Values, exceptions *)

(** The values a feature or symptom dictionary holds. *)
Inductive pyval : Type :=
  | PyNone
  | PyBool (b : bool)
  | PyNum (q : Q).

(** Truth value of [v] in a condition. *)
Definition truthy (v : pyval) : bool :=
  match v with
  | PyNone => false
  | PyBool b => b
  | PyNum q => negb (Qeq_bool q 0)
  end.

(** [v is not None] *)
Definition is_not_none (v : pyval) : bool :=
  match v with PyNone => false | _ => true end.

(** [float(v)] for a value that is not [None]. *)
Definition py_float (v : pyval) : Q :=
  match v with
  | PyNone => 0
  | PyBool b => if b then 1 else 0
  | PyNum q => q
  end.

Inductive exn : Type :=
  | FileNotFoundError
  | ZeroDivisionError.

Inductive result (A : Type) : Type :=
  | Ok (a : A)
  | Raise (e : exn).
Arguments Ok {A} a.
Arguments Raise {A} e.

Definition bind {A B : Type} (r : result A) (k : A -> result B) : result B :=
  match r with
  | Ok a => k a
  | Raise e => Raise e
  end.

#[export] Instance result_ret : MRet result := fun A a => Ok a.
#[export] Instance result_bind : MBind result := fun A B k r => bind r k.

(** [a / b] on numbers. *)
Definition py_div (a b : Q) : result Q :=
  if Qeq_bool b 0 then Raise ZeroDivisionError else Ok (a / b)%Q.

(** ** The model store ([Tracker/ml/model.py]) *)

(** The fitted regressor, seen through [model.predict(row)[0]].  It is
    total: the checks scikit-learn makes on the shape of the row are not
    modelled. *)
Definition regressor : Type := list Q -> Q.

(** The dictionary [save_model] dumps. *)
Record model_data : Type := ModelData {
  model : regressor;
  feature_names : list string;
  version : string
}.

(** The file at [get_model_path()], [models/cycle_predictor.joblib]: absent,
    or holding what [joblib.dump] wrote.  [save_model] is its only writer. *)
Definition model_file : Type := option model_data.

(** [save_model]: the dictionary replaces whatever the file held. *)
Definition save_model (m : regressor) (names : list string)
    (fs : model_file) : model_file :=
  Some {| model := m; feature_names := names; version := "1.0" |}.

(** [load_model]: not-found without a file, else the two entries read
    back. *)
Definition load_model (fs : model_file) : result (regressor * list string) :=
  match fs with
  | None => Raise FileNotFoundError
  | Some d => Ok (model d, feature_names d)
  end.

(** ** The predictor ([Tracker/ml/model.py]) *)

(** The row handed to the model: for each expected name, in the order of
    the file, [float(features_dict.get(name, 0))], with 0 for [None]. *)
Definition features_row (features_dict : gmap string pyval)
    (names : list string) : list Q :=
  map (fun name =>
         let value := default (PyNum 0) (features_dict !! name) in
         let value := if is_not_none value then value else PyNum 0 in
         py_float value) names.

(** [sum(1 for name in feature_names if features_dict.get(name) is not None)] *)
Definition available_features (features_dict : gmap string pyval)
    (names : list string) : nat :=
  length (filter (fun name =>
                    is_not_none (default PyNone (features_dict !! name)) = true)
                 names).

Definition of_nat (n : nat) : Q := inject_Z (Z.of_nat n).

(** [predict_cycle_length]: the pair [(predicted_length, confidence)]. *)
Definition predict_cycle_length (fs : model_file)
    (features_dict : gmap string pyval) : result (Q * Q) :=
  '(m, names) ← load_model fs;
  let features := features_row features_dict names in
  let predicted_length := m features in
  let predicted_length := Py.max 21 (Py.min 40 predicted_length) in
  let available := available_features features_dict names in
  confidence ← py_div (of_nat available) (of_nat (length names));
  Ok (Py.round predicted_length 1, confidence).

(** [1 if symptoms.get(key) else 0] *)
Definition flag (symptoms : gmap string pyval) (key : string) : pyval :=
  PyNum (if truthy (default PyNone (symptoms !! key)) then 1 else 0).

Section Predictor.
Variable np_sqrt : Q -> Q.

(** The lag and rolling entries: [(prev_1, prev_2, prev_3, rolling_mean,
    rolling_std)]. *)
Definition history_features (cycle_lengths : list Q) : Q * Q * Q * Q * Q :=
  if decide (3 <= length cycle_lengths)%nat then
    (Py.index_neg cycle_lengths 1,
     Py.index_neg cycle_lengths 2,
     Py.index_neg cycle_lengths 3,
     Py.mean (Py.slice_last 3 cycle_lengths),
     Py.std np_sqrt (Py.slice_last 3 cycle_lengths))
  else if decide (2 <= length cycle_lengths)%nat then
    (Py.index_neg cycle_lengths 1,
     Py.index_neg cycle_lengths 2,
     Py.index_neg cycle_lengths 1,
     Py.mean cycle_lengths,
     if decide (1 < length cycle_lengths)%nat
     then Py.std np_sqrt cycle_lengths else 2%Q)
  else if decide (length cycle_lengths = 1)%nat then
    let x := default 0%Q (cycle_lengths !! 0%nat) in
    (x, x, x, x, 2%Q)
  else
    (28%Q, 28%Q, 28%Q, 28%Q, 2%Q).

(** The dictionary [features] of [predict_with_history]. *)
Definition build_features (cycle_lengths : list Q) (user_age : Q)
    (symptoms : gmap string pyval) : gmap string pyval :=
  let '(prev_1, prev_2, prev_3, rolling_mean, rolling_std) :=
    history_features cycle_lengths in
  list_to_map
    [ ("prev_cycle_length_1", PyNum prev_1);
      ("prev_cycle_length_2", PyNum prev_2);
      ("prev_cycle_length_3", PyNum prev_3);
      ("rolling_mean_3", PyNum rolling_mean);
      ("rolling_std_3", PyNum rolling_std);
      ("age", PyNum user_age);
      ("cramps", flag symptoms "cramps");
      ("headache", flag symptoms "headache");
      ("mood_swings", flag symptoms "mood_swings");
      ("fatigue", flag symptoms "fatigue");
      ("bloating", flag symptoms "bloating");
      ("flow_encoded", default (PyNum 2) (symptoms !! "flow_encoded"));
      ("period_length", default (PyNum 5) (symptoms !! "period_length")) ].

(** [predict_with_history]; [symptoms] is [None] where the caller leaves
    the default.  Only the not-found error is caught. *)
Definition predict_with_history (fs : model_file) (cycle_lengths : list Q)
    (user_age : Q) (symptoms : option (gmap string pyval))
    : result (Q * Q) :=
  let symptoms := default ∅ symptoms in
  let features := build_features cycle_lengths user_age symptoms in
  match predict_cycle_length fs features with
  | Raise FileNotFoundError =>
      match cycle_lengths with
      | _ :: _ => Ok (Py.round (Py.mean cycle_lengths) 1, 1 # 2)
      | [] => Ok (28%Q, 3 # 10)
      end
  | r => r
  end.
End Predictor.

(** ** Records of the store ([Tracker/models.py]) *)

Record Cycle : Type := MkCycle {
  pk : Z;
  user : Z;
  start_date : Z;
  end_date : option Z;
  cycle_length : option Z;
  notes : string
}.

Record DailyLog : Type := MkDailyLog {
  cycle : Z;
  date : Z;
  flow_intensity : string;
  cramps : bool;
  headache : bool;
  mood_swings : bool;
  fatigue : bool;
  bloating : bool
}.

Record database : Type := MkDatabase {
  cycles : list Cycle;
  daily_logs : list DailyLog
}.

(** [order_by(key)]: a stable sort, rows with equal keys keep the order of
    the table. *)
Fixpoint insert_by {A : Type} (key : A -> Z) (x : A) (l : list A) : list A :=
  match l with
  | [] => [x]
  | y :: l' => if decide (key x <= key y)%Z then x :: l
               else y :: insert_by key x l'
  end.

Definition order_by {A : Type} (key : A -> Z) (l : list A) : list A :=
  foldr (insert_by key) [] l.

(** [Cycle.objects.filter(user=u)] *)
Definition cycles_of (db : database) (u : Z) : list Cycle :=
  filter (fun c => user c = u) (cycles db).

(** [DailyLog.objects.filter(cycle__user=u)] *)
Definition daily_logs_of (db : database) (u : Z) : list DailyLog :=
  filter (fun l => Exists (fun c => pk c = cycle l /\ user c = u) (cycles db))
         (daily_logs db).

(** [Model.save()]: the row with the instance's key is overwritten, or the
    instance is appended. *)
Definition save (c : Cycle) (db : database) : database :=
  MkDatabase
    (if decide (Exists (fun c' => pk c' = pk c) (cycles db))
     then (fun c' => if decide (pk c' = pk c) then c else c') <$> cycles db
     else cycles db ++ [c])
    (daily_logs db).

(** [Cycle.calculate_cycle_length] *)
Definition calculate_cycle_length (self : Cycle) (db : database)
    : Cycle * database :=
  match end_date self with
  | Some e =>
      let self := MkCycle (pk self) (user self) (start_date self)
                    (end_date self) (Some (e - start_date self)%Z)
                    (notes self) in
      (self, save self db)
  | None => (self, db)
  end.

(** ** The cycle views ([Tracker/views.py]) *)

(** The cleaned data of a valid [CycleForm]. *)
Record CycleForm : Type := MkCycleForm {
  form_start_date : Z;
  form_end_date : option Z;
  form_notes : string
}.

(** The key the store gives to a new row. *)
Definition next_pk (db : database) : Z :=
  (1 + foldr Z.max 0 (pk <$> cycles db))%Z.

(** [Cycle.objects.filter(user=u).order_by('-start_date').first()] *)
Definition latest_cycle (db : database) (u : Z) : option Cycle :=
  head (order_by (fun c => (- start_date c)%Z) (cycles_of db u)).

(** [cycle_create] on a POST with a valid form. *)
Definition cycle_create (request_user : Z) (form : CycleForm)
    (db : database) : database :=
  let db :=
    match latest_cycle db request_user with
    | Some previous_cycle =>
        match end_date previous_cycle with
        | None =>
            let previous_cycle :=
              MkCycle (pk previous_cycle) (user previous_cycle)
                (start_date previous_cycle)
                (Some (form_start_date form - 1)%Z)
                (cycle_length previous_cycle) (notes previous_cycle) in
            save previous_cycle db
        | Some _ => db
        end
    | None => db
    end in
  save (MkCycle (next_pk db) request_user (form_start_date form)
          (form_end_date form) None (form_notes form)) db.

(** [cycle_update] on a POST with a valid form, for a cycle of the user. *)
Definition cycle_update (c : Cycle) (form : CycleForm) (db : database)
    : database :=
  save (MkCycle (pk c) (user c) (form_start_date form) (form_end_date form)
          (cycle_length c) (form_notes form)) db.

(** ** The forecast service ([Tracker/forecast_service.py]) *)

(** [flow_map.get(s, 2)] *)
Definition flow_map (s : string) : Q :=
  if decide (s = "none") then 0
  else if decide (s = "light") then 1
  else if decide (s = "medium") then 2
  else if decide (s = "heavy") then 3
  else 2.

(** [sum(1 for l in logs if p l) > len(logs) * 0.3] *)
Definition frequent (p : DailyLog -> bool) (logs : list DailyLog) : bool :=
  if Qlt_le_dec (of_nat (length logs) * (3 # 10))
                (of_nat (length (filter (fun l => p l = true) logs)))
  then true else false.

(** [sum(l) / len(l)] on a list that is not empty. *)
Definition average (l : list Q) : Q := (Py.sum l / of_nat (length l))%Q.

(** [get_user_cycle_data]: the lengths of the completed cycles, oldest
    first, and the symptom summary. *)
Definition get_user_cycle_data (db : database) (u : Z)
    : list Q * gmap string pyval :=
  let cycles :=
    order_by start_date
      (filter (fun c => cycle_length c <> None) (cycles_of db u)) in
  let cycle_lengths :=
    omap (fun c => match cycle_length c with
                   | Some n => if decide (n = 0)%Z then None
                               else Some (inject_Z n)
                   | None => None
                   end) cycles in
  let symptoms : gmap string pyval :=
    list_to_map
      [ ("cramps", PyBool false); ("headache", PyBool false);
        ("mood_swings", PyBool false); ("fatigue", PyBool false);
        ("bloating", PyBool false); ("flow_encoded", PyNum 2);
        ("period_length", PyNum 5) ] in
  let recent_logs :=
    take 30 (order_by (fun l => (- date l)%Z) (daily_logs_of db u)) in
  let symptoms :=
    match recent_logs with
    | [] => symptoms
    | _ :: _ =>
        let flows := (fun l => flow_map (flow_intensity l)) <$> recent_logs in
        <["flow_encoded" := PyNum (average flows)]>
          (<["bloating" := PyBool (frequent bloating recent_logs)]>
          (<["fatigue" := PyBool (frequent fatigue recent_logs)]>
          (<["mood_swings" := PyBool (frequent mood_swings recent_logs)]>
          (<["headache" := PyBool (frequent headache recent_logs)]>
          (<["cramps" := PyBool (frequent cramps recent_logs)]> symptoms)))))
    end in
  let period_lengths :=
    omap (fun c => match end_date c with
                   | Some e =>
                       let period_length := (e - start_date c)%Z in
                       if decide (1 <= period_length <= 10)%Z
                       then Some (inject_Z period_length) else None
                   | None => None
                   end) cycles in
  let symptoms :=
    match period_lengths with
    | [] => symptoms
    | _ :: _ => <["period_length" := PyNum (average period_lengths)]> symptoms
    end in
  (cycle_lengths, symptoms).

(** The dictionary [get_prediction_for_user] returns; [cycle_count] is
    [None] where the key is absent. *)
Record forecast : Type := MkForecast {
  predicted_length : option Q;
  predicted_date : option Z;
  confidence : Q;
  days_until : option Z;
  has_enough_data : bool;
  message : string;
  cycle_count : option nat
}.

(** The result for a user without a completed cycle. *)
Definition not_enough_data : forecast :=
  MkForecast None None 0 None false
    "Log at least one complete cycle to get predictions" None.

(** The message for a confidence: high from 0.7, moderate from 0.5. *)
Definition tier (confidence : Q) : string :=
  if Qlt_le_dec confidence (7 # 10) then
    if Qlt_le_dec confidence (1 # 2)
    then "Low confidence - based on limited data"
    else "Moderate confidence - log more cycles for better accuracy"
  else "High confidence prediction".

Section Forecast.
Variable np_sqrt : Q -> Q.
(** [date.today()] *)
Variable today : Z.

(** [get_prediction_for_user] *)
Definition get_prediction_for_user (fs : model_file) (db : database)
    (u : Z) : result forecast :=
  let '(cycle_lengths, symptoms) := get_user_cycle_data db u in
  if decide (1 <= length cycle_lengths)%nat then
    '(predicted_length, confidence) ←
      predict_with_history np_sqrt fs cycle_lengths 25 (Some symptoms);
    let '(predicted_date, days_until) :=
      match latest_cycle db u with
      | Some last_cycle =>
          let predicted_date :=
            (start_date last_cycle + Py.int predicted_length)%Z in
          (Some predicted_date, Some (predicted_date - today)%Z)
      | None => (None, None)
      end in
    let confidence :=
      if decide (length cycle_lengths < 3)%nat
      then (confidence * (7 # 10))%Q else confidence in
    Ok (MkForecast (Some predicted_length) predicted_date
          (Py.round confidence 2) days_until true (tier confidence)
          (Some (length cycle_lengths)))
  else Ok not_enough_data.
End Forecast.

(** ** The dataset preparer ([Tracker/ml/data_loader.py]) *)

Module Pandas.

(** A numeric column: [None] is NaN. *)
Abbreviation series := (list (option Q)).

(** [s.shift(k)] *)
Definition shift (k : nat) (s : series) : series :=
  take (length s) (replicate k None ++ s).

(** The observations of the window of [size] rows that ends at row [i]. *)
Definition window (size : nat) (s : series) (i : nat) : list Q :=
  omap id (drop (S i - size) (take (S i) s)).

(** [s.rolling(size, min_periods=1).agg()], for an aggregate that answers
    NaN where it has too few observations. *)
Definition rolling (size : nat) (agg : list Q -> option Q) (s : series)
    : series :=
  imap (fun i _ => agg (window size s i)) s.

(** [s.fillna(v)] *)
Definition fillna (v : Q) (s : series) : list Q := default v <$> s.

(** The mean of a rolling window: NaN without an observation. *)
Definition rolling_mean (w : list Q) : option Q :=
  match w with
  | [] => None
  | _ :: _ => Some (Py.mean w)
  end.

Section Std.
Variable np_sqrt : Q -> Q.

(** The sample standard deviation ([ddof=1]) of a rolling window: NaN on
    fewer than two observations. *)
Definition rolling_std (w : list Q) : option Q :=
  if decide (length w < 2)%nat then None
  else Some (np_sqrt
    (Py.sum (map (fun x => (x - Py.mean w) * (x - Py.mean w))%Q w)
     / of_nat (length w - 1))%Q).
End Std.

End Pandas.

(** A row of the dataset, with the columns [create_features] reads. *)
Record row : Type := MkRow {
  user_id : Z;
  cycle_start_date : Z;
  row_cycle_length : option Q
}.

(** A row of the frame [create_features] returns. *)
Record feature_row : Type := MkFeatureRow {
  source : row;
  prev_cycle_length_1 : Q;
  prev_cycle_length_2 : Q;
  prev_cycle_length_3 : Q;
  rolling_mean_3 : Q;
  rolling_std_3 : Q
}.

(** [df.sort_values(['user_id', 'cycle_start_date'])] *)
Definition sort_values (df : list row) : list row :=
  order_by user_id (order_by cycle_start_date df).

(** [df.groupby('user_id')['cycle_length'].transform(f)]: [f] runs on the
    column of each user, and each row receives the entry at its position
    within its group. *)
Definition groupby_transform (f : Pandas.series -> Pandas.series)
    (df : list row) : Pandas.series :=
  imap (fun i r =>
          let same_user := fun r' => user_id r' = user_id r in
          let group := row_cycle_length <$> filter same_user df in
          let position := length (filter same_user (take i df)) in
          mjoin (f group !! position)) df.

Section Features.
Variable np_sqrt : Q -> Q.

(** The lag and rolling columns before any NaN is filled. *)
Definition lag_column (k : nat) (df : list row) : Pandas.series :=
  groupby_transform (Pandas.shift k) df.

Definition rolling_mean_column (df : list row) : Pandas.series :=
  groupby_transform
    (fun x => Pandas.shift 1 (Pandas.rolling 3 Pandas.rolling_mean x)) df.

Definition rolling_std_column (df : list row) : Pandas.series :=
  groupby_transform
    (fun x => Pandas.shift 1
                (Pandas.rolling 3 (Pandas.rolling_std np_sqrt) x)) df.

(** [create_features] on a frame that has the columns [user_id],
    [cycle_start_date] and [cycle_length]. *)
Definition create_features (df : list row) : list feature_row :=
  let df := sort_values df in
  let prev_1 := lag_column 1 df in
  let prev_2 := lag_column 2 df in
  let prev_3 := lag_column 3 df in
  let mean_3 := rolling_mean_column df in
  let std_3 := rolling_std_column df in
  let std_3 := Pandas.fillna 2 std_3 in
  let prev_1 := Pandas.fillna 28 prev_1 in
  let prev_2 := Pandas.fillna 28 prev_2 in
  let prev_3 := Pandas.fillna 28 prev_3 in
  let mean_3 := Pandas.fillna 28 mean_3 in
  imap (fun i r =>
          MkFeatureRow r
            (default 0%Q (prev_1 !! i)) (default 0%Q (prev_2 !! i))
            (default 0%Q (prev_3 !! i)) (default 0%Q (mean_3 !! i))
            (default 0%Q (std_3 !! i))) df.
End Features.

(** [get_feature_columns] *)
Definition get_feature_columns : list string :=
  [ "prev_cycle_length_1"; "prev_cycle_length_2"; "prev_cycle_length_3";
    "rolling_mean_3"; "rolling_std_3"; "age"; "cramps"; "headache";
    "mood_swings"; "fatigue"; "bloating"; "flow_encoded"; "period_length" ].

(** ** More of the views ([Tracker/views.py]) *)

(** The store keeps the keys of the cycles apart. *)
Definition unique_pks (db : database) : Prop := NoDup (pk <$> cycles db).

(** [get_object_or_404(Cycle, pk=key, user=u)]: [None] is the 404. *)
Definition get_cycle_or_404 (db : database) (key u : Z) : option Cycle :=
  head (filter (fun c => pk c = key /\ user c = u) (cycles db)).

(** [cycle.delete()]: the row goes, and with it the daily logs of the
    cycle ([on_delete=CASCADE]). *)
Definition delete_cycle (c : Cycle) (db : database) : database :=
  MkDatabase (filter (fun c' => pk c' <> pk c) (cycles db))
             (filter (fun l => cycle l <> pk c) (daily_logs db)).

(** [cycle_update] as a request, a POST with a valid form: the 404, or the
    update of the cycle found. *)
Definition cycle_update_request (request_user key : Z) (form : CycleForm)
    (db : database) : option database :=
  c ← get_cycle_or_404 db key request_user;
  Some (cycle_update c form db).

(** [cycle_delete] on a POST. *)
Definition cycle_delete (request_user key : Z) (db : database)
    : option database :=
  c ← get_cycle_or_404 db key request_user;
  Some (delete_cycle c db).

(** [home], the re-opening of the latest cycle: closed, with a length that
    is neither null nor zero and below 7, it loses its end date and its
    length. *)
Definition home_reopen (request_user : Z) (db : database) : database :=
  match latest_cycle db request_user with
  | Some latest_cycle =>
      match end_date latest_cycle, cycle_length latest_cycle with
      | Some _, Some n =>
          if decide (n <> 0 /\ n < 7)%Z
          then save (MkCycle (pk latest_cycle) (user latest_cycle)
                       (start_date latest_cycle) None None
                       (notes latest_cycle)) db
          else db
      | _, _ => db
      end
  | None => db
  end.


(** [min(l)] and [max(l)] on a list that is not empty. *)
Definition list_min (l : list Z) : Z :=
  match l with
  | [] => 0
  | x :: l' => foldl Z.min x l'
  end.
Definition list_max (l : list Z) : Z :=
  match l with
  | [] => 0
  | x :: l' => foldl Z.max x l'
  end.

(** [analytics_view], the cycle statistics:
    [(avg_cycle_length, min_cycle_length, max_cycle_length)]. *)
Definition analytics_cycle_stats (request_user : Z) (db : database)
    : Q * Z * Z :=
  let lengths :=
    omap cycle_length (cycles_of db request_user) in
  match lengths with
  | [] => (0%Q, 0%Z, 0%Z)
  | _ :: _ =>
      ((Py.sum (inject_Z <$> lengths) / of_nat (length lengths))%Q,
       list_min lengths, list_max lengths)
  end.

(** [analytics_view], the share of the logs of the user that report a
    symptom, in percent: [round(count / total_logs * 100)], or 0 without
    logs. *)
Definition analytics_symptom_pct (symptom : DailyLog -> bool)
    (request_user : Z) (db : database) : Z :=
  let all_logs := daily_logs_of db request_user in
  let total_logs := length all_logs in
  let count := length (filter (fun l => symptom l = true) all_logs) in
  if decide (0 < total_logs)%nat
  then Py.rint (of_nat count / of_nat total_logs * 100)%Q
  else 0%Z.

(** ** More of the dataset preparer ([Tracker/ml/data_loader.py]) *)

(** [preprocess_data], the flow encoding:
    [df['flow_intensity'].map(flow_map).fillna(1)] on one entry. *)
Definition preprocess_flow (s : string) : Q :=
  if decide (s = "none") then 0
  else if decide (s = "light") then 1
  else if decide (s = "medium") then 2
  else if decide (s = "heavy") then 3
  else 1.

(** Sorting of observations, for the median. *)
Fixpoint insert_sorted (x : Q) (l : list Q) : list Q :=
  match l with
  | [] => [x]
  | y :: l' => if Qlt_le_dec y x then y :: insert_sorted x l' else x :: l
  end.

Definition sort_observations (l : list Q) : list Q :=
  foldr insert_sorted [] l.

(** [s.median()]: NaN is skipped; the middle observation, or the mean of
    the two middle ones; NaN without an observation. *)
Definition median (s : Pandas.series) : option Q :=
  let sorted := sort_observations (omap id s) in
  let n := length sorted in
  if decide (n = 0)%nat then None
  else if Nat.even n
       then Some ((default 0%Q (sorted !! (n / 2 - 1)%nat)
                   + default 0%Q (sorted !! (n / 2)%nat)) / 2)%Q
       else sorted !! (n / 2)%nat.

(** [s.fillna(s.median())]: a NaN median fills nothing. *)
Definition fillna_median (s : Pandas.series) : Pandas.series :=
  match median s with
  | Some m => (fun x => Some (default m x)) <$> s
  | None => s
  end.

(** [preprocess_data] on the columns [create_features] reads: the numeric
    column [cycle_length] has its NaN replaced by its median. *)
Definition preprocess_data (df : list row) : list row :=
  zip_with (fun r x => MkRow (user_id r) (cycle_start_date r) x) df
    (fillna_median (row_cycle_length <$> df)).

(** [prepare_training_data], the feature columns: the expected names that
    are columns of the frame, in the expected order. *)
Definition feature_cols (columns : list string) : list string :=
  filter (fun col => col ∈ columns) get_feature_columns.

Section Training.
Variable np_sqrt : Q -> Q.

(** [prepare_training_data] on a loaded frame: the rows of the feature
    frame that have a target, [df.dropna(subset=['cycle_length'])]. *)
Definition training_rows (df : list row) : list feature_row :=
  filter (fun r => row_cycle_length (source r) <> None)
    (create_features np_sqrt (preprocess_data df)).

(** The sample standard deviation of the last observations, as the rolling
    std of training computes it. *)
Definition sample_std (w : list Q) : Q :=
  np_sqrt (Py.sum (map (fun x => (x - Py.mean w) * (x - Py.mean w))%Q w)
           / of_nat (length w - 1))%Q.
End Training.

(** The cycle lengths of the user of row [r] in the rows before row [i],
    in the order of the frame: what the user had recorded before that
    row. *)
Definition history_before (df : list row) (i : nat) (r : row) : list Q :=
  omap row_cycle_length
    (filter (fun r' => user_id r' = user_id r) (take i df)).

(** Smaller key first; [R] between rows with the same key. *)
Definition by_key_then {A : Type} (key : A -> Z) (R : A -> A -> Prop)
    (x y : A) : Prop :=
  (key x < key y)%Z \/ (key x = key y /\ R x y).

(** ** More data for the examples *)

(** A user, 7, whose latest cycle was closed after 3 days. *)
Definition example_short_database : database :=
  MkDatabase [ MkCycle 1 7 100 (Some 103%Z) (Some 3%Z) EmptyString ] [].



(** ** Vocabulary of the statements *)

(** The five entries of a feature dictionary that come from the history. *)
Definition history_fields (f : gmap string pyval)
    (prev_1 prev_2 prev_3 rolling_mean rolling_std : Q) : Prop :=
  f !! "prev_cycle_length_1" = Some (PyNum prev_1) /\
  f !! "prev_cycle_length_2" = Some (PyNum prev_2) /\
  f !! "prev_cycle_length_3" = Some (PyNum prev_3) /\
  f !! "rolling_mean_3" = Some (PyNum rolling_mean) /\
  f !! "rolling_std_3" = Some (PyNum rolling_std).

(** A symptom dictionary supplies no [None] for its two numeric entries. *)
Definition numeric_symptoms (symptoms : gmap string pyval) : Prop :=
  symptoms !! "flow_encoded" <> Some PyNone /\
  symptoms !! "period_length" <> Some PyNone.

(** A model file the predictor can use: its list of feature names is not
    empty. *)
Definition usable (fs : model_file) : Prop :=
  forall d, fs = Some d -> feature_names d <> [].

(** Where the gaps are: the position of a row within the rows of its
    user. *)
Definition position (df : list row) (i : nat) (r : row) : nat :=
  length (filter (fun r' => user_id r' = user_id r) (take i df)).

(** ** Data for the examples *)

(** A square root for running the examples: the root to three decimals,
    rounded down.  The theorems hold for every [np_sqrt]. *)
Definition sqrt_approx (q : Q) : Q :=
  (inject_Z (Z.sqrt (Qfloor (q * 1000000))) / 1000)%Q.

(** A model file as training saves it: the thirteen feature names and a
    regressor, here one that always answers 30. *)
Definition example_model_data : model_data :=
  {| model := fun _ => 30%Q;
     feature_names := get_feature_columns;
     version := "1.0" |}.

(** A user, 7, with one completed cycle, one open cycle and one log. *)
Definition example_database : database :=
  MkDatabase
    [ MkCycle 1 7 100 (Some 105%Z) (Some 28%Z) EmptyString;
      MkCycle 2 7 128 None None EmptyString ]
    [ MkDailyLog 1 101 "heavy" true false false false false ].

(** A user, 7, whose only cycle is open. *)
Definition example_open_database : database :=
  MkDatabase [ MkCycle 1 7 100 None None EmptyString ] [].

(** Two cycles of one user. *)
Definition example_frame : list row :=
  [ MkRow 1 0 (Some 28%Q); MkRow 1 28 (Some 30%Q) ].

(** * Properties *)

(** ** Rounding *)

Section Rounding.
Local Open Scope Q_scope.

Lemma rint_floor_or_succ (q : Q) :
  Py.rint q = Qfloor q \/
  (Py.rint q = (Qfloor q + 1)%Z /\ inject_Z (Qfloor q) + (1 # 2) <= q).
Proof.
  unfold Py.rint.
  destruct (Qcompare_spec (q - inject_Z (Qfloor q)) (1 # 2)) as [E | L | G].
  - destruct (Z.even (Qfloor q)); [by left | right].
    split; [done | rewrite <- E; lra].
  - by left.
  - right. split; [done | lra].
Qed.

(** Rounding to an integer never crosses an integer. *)
Lemma rint_between (m M : Z) (q : Q) :
  inject_Z m <= q -> q <= inject_Z M -> (m <= Py.rint q <= M)%Z.
Proof.
  intros Hm HM.
  assert (m <= Qfloor q)%Z as Hlo.
  { rewrite <- (Qfloor_Z m). by apply Qfloor_resp_le. }
  assert (Qfloor q <= M)%Z as Hhi.
  { rewrite <- (Qfloor_Z M). by apply Qfloor_resp_le. }
  destruct (rint_floor_or_succ q) as [-> | [-> Hhalf]]; [lia |].
  split; [lia |].
  destruct (decide (Qfloor q = M)) as [E | ?]; [| lia].
  rewrite E in Hhalf. lra.
Qed.

Lemma pow10_pos (n : nat) : 0 < Py.pow10 n.
Proof.
  unfold Py.pow10. change 0 with (inject_Z 0). rewrite <- Zlt_Qlt.
  apply Z.pow_pos_nonneg; lia.
Qed.

(** [round(x, n)] is a decimal with [n] places. *)
Lemma round_decimal (x : Q) (n : nat) :
  Py.round x n * Py.pow10 n == inject_Z (Py.rint (x * Py.pow10 n)).
Proof.
  unfold Py.round. pose proof (pow10_pos n). field. lra.
Qed.

(** [round] never crosses an integer. *)
Lemma round_between (a b : Z) (x : Q) (n : nat) :
  inject_Z a <= x -> x <= inject_Z b ->
  inject_Z a <= Py.round x n /\ Py.round x n <= inject_Z b.
Proof.
  intros Ha Hb. pose proof (pow10_pos n) as Hp.
  assert (inject_Z (a * 10 ^ Z.of_nat n) <= x * Py.pow10 n) as Hlo.
  { rewrite inject_Z_mult. fold (Py.pow10 n). nra. }
  assert (x * Py.pow10 n <= inject_Z (b * 10 ^ Z.of_nat n)) as Hhi.
  { rewrite inject_Z_mult. fold (Py.pow10 n). nra. }
  destruct (rint_between _ _ _ Hlo Hhi) as [H1 H2].
  rewrite Zle_Qle, inject_Z_mult in H1, H2.
  fold (Py.pow10 n) in H1, H2.
  rewrite <- (round_decimal x n) in H1, H2.
  split; nra.
Qed.

(** [round] moves a number by at most half a unit of the last place. *)
Lemma round_error (x : Q) (n : nat) :
  Qabs (Py.round x n - x) * Py.pow10 n <= 1 # 2.
Proof.
  pose proof (pow10_pos n) as Hp.
  pose proof (round_decimal x n) as Hd.
  set (y := x * Py.pow10 n) in *.
  assert (Qabs (inject_Z (Py.rint y) - y) <= 1 # 2) as Hy.
  { pose proof (Qfloor_le y) as Hfl. pose proof (Qlt_floor y) as Hfu.
    rewrite inject_Z_plus in Hfu. change (inject_Z 1) with 1 in Hfu.
    apply Qabs_Qle_condition. unfold Py.rint.
    destruct (Qcompare_spec (y - inject_Z (Qfloor y)) (1 # 2))
      as [E | L | G].
    - destruct (Z.even (Qfloor y)).
      + split; lra.
      + rewrite inject_Z_plus. change (inject_Z 1) with 1. split; lra.
    - split; lra.
    - rewrite inject_Z_plus. change (inject_Z 1) with 1. split; lra. }
  rewrite <- (Qabs_pos (Py.pow10 n)) by lra.
  rewrite <- Qabs_Qmult.
  assert ((Py.round x n - x) * Py.pow10 n == inject_Z (Py.rint y) - y)
    as -> by (subst y; lra).
  done.
Qed.
End Rounding.

(** ** The model store *)

(** C7: whatever the model object, the feature names and the previous
    content of the file, [load_model()] after [save_model(model,
    feature_names)] returns the model and exactly the list of feature names
    that was saved, in the same order. *)
Theorem load_model_save_model (m : regressor) (names : list string)
    (fs : model_file) :
  load_model (save_model m names fs) = Ok (m, names).
Proof. reflexivity. Qed.

(** Without a file [load_model] raises the not-found error, and nothing
    else does. *)
Lemma load_model_not_found (fs : model_file) :
  load_model fs = Raise FileNotFoundError <-> fs = None.
Proof. destruct fs; simpl; split; intros H; by try discriminate H. Qed.

(** ** The predictor *)

Section PredictorFacts.
Local Open Scope Q_scope.

Lemma clamp_range (x : Q) :
  21 <= Py.max 21 (Py.min 40 x) /\ Py.max 21 (Py.min 40 x) <= 40.
Proof.
  unfold Py.max, Py.min.
  destruct (Qlt_le_dec x 40), (Qlt_le_dec 21 _); split; lra.
Qed.

Lemma predict_cycle_length_no_file (features_dict : gmap string pyval) :
  predict_cycle_length None features_dict = Raise FileNotFoundError.
Proof. reflexivity. Qed.

Lemma available_features_le (features_dict : gmap string pyval)
    (names : list string) :
  (available_features features_dict names <= length names)%nat.
Proof. apply length_filter. Qed.

Lemma of_nat_pos (n : nat) : (0 < n)%nat -> 0 < of_nat n.
Proof.
  intros H. unfold of_nat. change 0 with (inject_Z 0).
  rewrite <- Zlt_Qlt. lia.
Qed.

Lemma of_nat_le (n m : nat) : (n <= m)%nat -> of_nat n <= of_nat m.
Proof. intros H. unfold of_nat. rewrite <- Zle_Qle. lia. Qed.

(** With a file whose list of feature names is not empty, the predictor
    returns; on the empty list the confidence ratio divides by zero. *)
Lemma predict_cycle_length_file (d : model_data)
    (features_dict : gmap string pyval) :
  predict_cycle_length (Some d) features_dict =
    match feature_names d with
    | [] => Raise ZeroDivisionError
    | _ :: _ =>
        Ok (Py.round
              (Py.max 21
                 (Py.min 40
                    (model d (features_row features_dict (feature_names d)))))
              1,
            of_nat (available_features features_dict (feature_names d))
            / of_nat (length (feature_names d)))
    end.
Proof.
  unfold predict_cycle_length, py_div. simpl.
  destruct (feature_names d) as [| name names] eqn:E; [reflexivity |].
  destruct (Qeq_bool (of_nat (length (name :: names))) 0) eqn:Hz;
    [| reflexivity].
  apply Qeq_bool_eq in Hz.
  pose proof (of_nat_pos (length (name :: names))) as Hp.
  specialize (Hp ltac:(simpl; lia)). rewrite Hz in Hp. lra.
Qed.

(** Whatever the feature dictionary and the raw output of the model, a
    length returned by [predict_cycle_length] lies in [[21, 40]], has one
    decimal place, and comes with a confidence in [[0, 1]]. *)
Lemma predict_cycle_length_range (fs : model_file)
    (features_dict : gmap string pyval) (v c : Q) :
  predict_cycle_length fs features_dict = Ok (v, c) ->
  (21 <= v /\ v <= 40) /\
  (exists k : Z, v * 10 == inject_Z k) /\
  (0 <= c /\ c <= 1).
Proof.
  destruct fs as [d |]; [| discriminate].
  rewrite predict_cycle_length_file.
  destruct (feature_names d) as [| name names] eqn:E; [discriminate |].
  intros [= <- <-]. split; [| split].
  - apply (round_between 21 40). all: apply clamp_range.
  - eexists. apply (round_decimal _ 1).
  - pose proof (of_nat_pos (length (name :: names)) ltac:(simpl; lia))
      as Hp.
    pose proof (of_nat_le _ _
      (available_features_le features_dict (name :: names))) as Hle.
    pose proof (of_nat_le 0 (available_features features_dict
      (name :: names)) ltac:(lia)) as H0.
    change (of_nat 0) with 0 in H0. cbn [length] in *.
    split.
    + apply Qle_shift_div_l; [done | lra].
    + apply Qle_shift_div_r; [done | lra].
Qed.
End PredictorFacts.

Section FallbackFacts.
Variable np_sqrt : Q -> Q.
Local Open Scope Q_scope.

(** Without a model file the predictor raises the not-found error, and
    [predict_with_history] answers from the history alone. *)
Lemma predict_with_history_no_file (cycle_lengths : list Q)
    (user_age : Q) (symptoms : option (gmap string pyval)) :
  predict_with_history np_sqrt None cycle_lengths user_age symptoms =
    Ok (match cycle_lengths with
        | [] => (28, 3 # 10)
        | _ :: _ => (Py.round (Py.mean cycle_lengths) 1, 1 # 2)
        end).
Proof.
  unfold predict_with_history. rewrite predict_cycle_length_no_file.
  by destruct cycle_lengths.
Qed.

(** C1 (as amended): without a model file [predict_with_history] never
    raises, whatever the history, the age and the symptoms.  On the empty
    history it returns 28.0 with confidence 0.3.  On a history that is
    not empty it returns, with confidence 0.5, the arithmetic mean of the
    cycle lengths rounded to one decimal place: a number with one decimal
    at most 0.05 away from the mean. *)
Theorem predict_with_history_fallback (cycle_lengths : list Q)
    (user_age : Q) (symptoms : option (gmap string pyval)) :
  exists v c,
    predict_with_history np_sqrt None cycle_lengths user_age symptoms
      = Ok (v, c) /\
    ((cycle_lengths = [] /\ v = 28 /\ c = 3 # 10) \/
     (cycle_lengths <> [] /\ c = 1 # 2 /\
      v = Py.round (Py.mean cycle_lengths) 1 /\
      Qabs (v - Py.mean cycle_lengths) <= 1 # 20 /\
      exists k : Z, v * 10 == inject_Z k)).
Proof.
  rewrite predict_with_history_no_file.
  destruct cycle_lengths as [| x l]; eexists _, _;
    (split; [reflexivity |]); [by left | right].
  repeat split; [done | | eexists; apply (round_decimal _ 1)].
  pose proof (round_error (Py.mean (x :: l)) 1) as H.
  change (Py.pow10 1) with 10 in H.
  set (e := Qabs _) in *. lra.
Qed.

(** C8 (as amended): for the history [[28, 30, 27]], age 25 and no model
    file, [predict_with_history] returns 28.3, the mean 85/3 rounded to
    one decimal place, with confidence 0.5. *)
Theorem predict_with_history_scenario
    (symptoms : option (gmap string pyval)) :
  predict_with_history np_sqrt None [28; 30; 27] 25 symptoms =
    Ok (283 # 10, 1 # 2).
Proof. by rewrite predict_with_history_no_file. Qed.

(** C3, the defect: the fallback of [predict_with_history] returns the
    rounded mean as it is, without the clamp of [predict_cycle_length].
    For the one-cycle history [[45]] and no model file the predicted
    length is 45.0, outside [[21, 40]]. *)
Theorem predict_with_history_fallback_unclamped (user_age : Q)
    (symptoms : option (gmap string pyval)) :
  exists v c,
    predict_with_history np_sqrt None [45] user_age symptoms = Ok (v, c) /\
    v == 45 /\ c == 1 # 2 /\ ~ v <= 40.
Proof.
  rewrite predict_with_history_no_file. eexists _, _.
  split; [reflexivity |]. by vm_compute.
Qed.
End FallbackFacts.

(** ** The feature builder *)


Section FeatureFacts.
Variable np_sqrt : Q -> Q.

Lemma history_features_0 :
  history_features np_sqrt [] = (28, 28, 28, 28, 2)%Q.
Proof. reflexivity. Qed.

Lemma history_features_1 (x : Q) :
  history_features np_sqrt [x] = (x, x, x, x, 2%Q).
Proof. reflexivity. Qed.

Lemma history_features_2 (x y : Q) :
  history_features np_sqrt [x; y] =
    (y, x, y, Py.mean [x; y], Py.std np_sqrt [x; y]).
Proof. reflexivity. Qed.

Lemma index_neg_app (l0 tl : list Q) (k : nat) :
  (1 <= k <= length tl)%nat ->
  Py.index_neg (l0 ++ tl) k = Py.index_neg tl k.
Proof.
  intros Hk. unfold Py.index_neg. rewrite length_app.
  rewrite lookup_app_r by lia. f_equal. f_equal. lia.
Qed.

Lemma slice_last_app (l0 tl : list Q) :
  Py.slice_last (length tl) (l0 ++ tl) = tl.
Proof.
  unfold Py.slice_last. rewrite length_app.
  replace (length l0 + length tl - length tl)%nat with (length l0) by lia.
  by rewrite drop_app_length.
Qed.

Lemma history_features_3 (l0 : list Q) (x y z : Q) :
  history_features np_sqrt (l0 ++ [x; y; z]) =
    (z, y, x, Py.mean [x; y; z], Py.std np_sqrt [x; y; z]).
Proof.
  unfold history_features.
  destruct (decide _) as [_ | Hn];
    [| rewrite length_app in Hn; simpl in Hn; lia].
  rewrite !index_neg_app by (simpl; lia).
  pose proof (slice_last_app l0 [x; y; z]) as Hs. cbn [length] in Hs.
  by rewrite Hs.
Qed.

(** The thirteen entries of the dictionary [predict_with_history]
    builds. *)
Lemma build_features_lookup (cycle_lengths : list Q) (user_age : Q)
    (symptoms : gmap string pyval) :
  let f := build_features np_sqrt cycle_lengths user_age symptoms in
  let '(prev_1, prev_2, prev_3, rolling_mean, rolling_std) :=
    history_features np_sqrt cycle_lengths in
  history_fields f prev_1 prev_2 prev_3 rolling_mean rolling_std /\
  f !! "age" = Some (PyNum user_age) /\
  f !! "cramps" = Some (flag symptoms "cramps") /\
  f !! "headache" = Some (flag symptoms "headache") /\
  f !! "mood_swings" = Some (flag symptoms "mood_swings") /\
  f !! "fatigue" = Some (flag symptoms "fatigue") /\
  f !! "bloating" = Some (flag symptoms "bloating") /\
  f !! "flow_encoded" =
    Some (default (PyNum 2) (symptoms !! "flow_encoded")) /\
  f !! "period_length" =
    Some (default (PyNum 5) (symptoms !! "period_length")).
Proof.
  unfold build_features, history_fields.
  destruct (history_features np_sqrt cycle_lengths)
    as [[[[prev_1 prev_2] prev_3] rolling_mean] rolling_std].
  cbn [list_to_map foldr fst snd curry uncurry].
  repeat split; by simplify_map_eq.
Qed.

(** With numeric symptoms, every expected feature is present and is not
    [None]. *)
Lemma build_features_complete (cycle_lengths : list Q) (user_age : Q)
    (symptoms : gmap string pyval) (name : string) :
  numeric_symptoms symptoms ->
  name ∈ get_feature_columns ->
  exists v,
    build_features np_sqrt cycle_lengths user_age symptoms !! name = Some v
    /\ v <> PyNone.
Proof.
  intros [Hflow Hperiod] Hin.
  pose proof (build_features_lookup cycle_lengths user_age symptoms) as H.
  cbv zeta in H.
  destruct (history_features np_sqrt cycle_lengths)
    as [[[[prev_1 prev_2] prev_3] rolling_mean] rolling_std].
  destruct H as ((H1 & H2 & H3 & H4 & H5) & H6 & H7 & H8 & H9 & H10 & H11
                 & H12 & H13).
  unfold get_feature_columns in Hin.
  repeat (apply elem_of_cons in Hin as [-> | Hin]);
    [.. | by apply elem_of_nil in Hin];
    eexists; (split; [eassumption |]); try done.
  - by destruct (symptoms !! "flow_encoded") as [[] |].
  - by destruct (symptoms !! "period_length") as [[] |].
Qed.

(** C2: for every history, age and numeric symptom dictionary, the
    dictionary built by [predict_with_history] has all 13 features,
    none of them [None], and its lag and rolling entries follow the
    degradation policy: on the empty history the three lags and the
    rolling mean are 28 and the rolling std is 2; on a single value the
    lags and the mean are that value and the std is 2; on two values
    lag-1 and lag-2 are the last and the first, lag-3 is lag-1 again and
    the mean and the population std are over both; on three values or
    more the lags are the last three and the mean and the population std
    are over these three. *)
Theorem build_features_degradation (cycle_lengths : list Q) (user_age : Q)
    (symptoms : gmap string pyval) :
  numeric_symptoms symptoms ->
  let f := build_features np_sqrt cycle_lengths user_age symptoms in
  (forall name, name ∈ get_feature_columns ->
     exists v, f !! name = Some v /\ v <> PyNone) /\
  (cycle_lengths = [] -> history_fields f 28 28 28 28 2) /\
  (forall x, cycle_lengths = [x] -> history_fields f x x x x 2) /\
  (forall x y, cycle_lengths = [x; y] ->
     history_fields f y x y (Py.mean [x; y]) (Py.std np_sqrt [x; y])) /\
  (forall l0 x y z, cycle_lengths = l0 ++ [x; y; z] ->
     history_fields f z y x
       (Py.mean [x; y; z]) (Py.std np_sqrt [x; y; z])).
Proof.
  intros Hs f. split.
  { intros name Hin. by apply build_features_complete. }
  pose proof (build_features_lookup cycle_lengths user_age symptoms) as H.
  cbv zeta in H. fold f in H.
  split; [| split; [| split]].
  - intros ->. rewrite history_features_0 in H. apply H.
  - intros x ->. rewrite history_features_1 in H. apply H.
  - intros x y ->. rewrite history_features_2 in H. apply H.
  - intros l0 x y z ->. rewrite history_features_3 in H. apply H.
Qed.
End FeatureFacts.

Section ConfidenceFacts.
Variable np_sqrt : Q -> Q.
Local Open Scope Q_scope.

(** When no requested feature is missing, all of them count. *)
Lemma available_features_all (f : gmap string pyval) (names : list string) :
  (forall name, name ∈ names -> exists v, f !! name = Some v /\ v <> PyNone) ->
  available_features f names = length names.
Proof.
  unfold available_features.
  induction names as [| name names IH]; intros H; [reflexivity |].
  rewrite filter_cons.
  destruct (H name) as (v & Hv & Hnone); [by left |].
  rewrite Hv. case_decide as Hd.
  - simpl. f_equal. apply IH. intros n Hn. apply H. by right.
  - by destruct v.
Qed.

(** With a model file, [predict_with_history] is [predict_cycle_length]
    on the dictionary it builds. *)
Lemma predict_with_history_file (d : model_data) (cycle_lengths : list Q)
    (user_age : Q) (symptoms : option (gmap string pyval)) :
  predict_with_history np_sqrt (Some d) cycle_lengths user_age symptoms =
    predict_cycle_length (Some d)
      (build_features np_sqrt cycle_lengths user_age (default ∅ symptoms)).
Proof.
  unfold predict_with_history. rewrite predict_cycle_length_file.
  by destruct (feature_names d).
Qed.

(** C10: for every history, age and symptoms whose supplied
    [flow_encoded] and [period_length] are not [None], the dictionary
    built by [predict_with_history] holds the 13 expected features with
    values that are not [None]; so with a model file that asks for
    expected features (a list of names of [get_feature_columns] that is
    not empty, as training saves it) the call returns, and the confidence
    it returns is exactly 1. *)
Theorem predict_with_history_full_confidence (cycle_lengths : list Q)
    (user_age : Q) (symptoms : option (gmap string pyval))
    (d : model_data) :
  numeric_symptoms (default ∅ symptoms) ->
  feature_names d <> [] ->
  feature_names d ⊆ get_feature_columns ->
  (forall name, name ∈ get_feature_columns ->
     exists v,
       build_features np_sqrt cycle_lengths user_age (default ∅ symptoms)
         !! name = Some v /\ v <> PyNone) /\
  exists v c,
    predict_with_history np_sqrt (Some d) cycle_lengths user_age symptoms
      = Ok (v, c) /\ c == 1.
Proof.
  intros Hs Hne Hsub.
  assert (forall name, name ∈ get_feature_columns ->
            exists v,
              build_features np_sqrt cycle_lengths user_age
                (default ∅ symptoms) !! name = Some v /\ v <> PyNone)
    as Hall by (intros name Hin; by apply build_features_complete).
  split; [exact Hall |].
  rewrite predict_with_history_file, predict_cycle_length_file.
  destruct (feature_names d) as [| name names] eqn:E; [done |].
  eexists _, _. split; [reflexivity |].
  rewrite available_features_all by (intros n Hn; apply Hall, Hsub, Hn).
  pose proof (of_nat_pos (length (name :: names)) ltac:(simpl; lia)).
  field. lra.
Qed.
End ConfidenceFacts.

(** ** The forecast service *)

Section OrderBy.
Context {A : Type} (key : A -> Z).

Lemma insert_by_Permutation (x : A) (l : list A) :
  insert_by key x l ≡ₚ x :: l.
Proof.
  induction l as [| y l IH]; simpl; [done |].
  case_decide; [done |]. rewrite IH. apply Permutation_swap.
Qed.

(** [order_by] reorders, it neither drops nor adds a row. *)
Lemma order_by_Permutation (l : list A) : order_by key l ≡ₚ l.
Proof.
  induction l as [| x l IH]; simpl; [done |].
  by rewrite insert_by_Permutation, IH.
Qed.

Lemma elem_of_order_by (x : A) (l : list A) : x ∈ order_by key l <-> x ∈ l.
Proof. by rewrite order_by_Permutation. Qed.
End OrderBy.

(** The cycle lengths [get_user_cycle_data] hands to the predictor: the
    lengths, neither null nor zero, of the cycles of the user. *)
Lemma elem_of_cycle_lengths (db : database) (u : Z) (x : Q) :
  x ∈ (get_user_cycle_data db u).1 ->
  exists c n, c ∈ cycles db /\ user c = u /\ cycle_length c = Some n /\
              n <> 0%Z /\ x = inject_Z n.
Proof.
  unfold get_user_cycle_data. cbn [fst].
  rewrite list_elem_of_omap. intros (c & Hc & Hx).
  apply elem_of_order_by, list_elem_of_filter in Hc as [_ Hc].
  apply list_elem_of_filter in Hc as [Hu Hc].
  destruct (cycle_length c) as [n |] eqn:En; [| done].
  case_decide; [done |]. injection Hx as <-. by exists c, n.
Qed.

Section ForecastFacts.
Variable np_sqrt : Q -> Q.
Variable today : Z.
Local Open Scope Q_scope.

(** C5: for a user without a completed cycle (no cycle of the user has a
    length, or only the length 0 that the service skips),
    [get_prediction_for_user] returns the not-enough-data result:
    [predicted_length], [predicted_date] and [days_until] are [None],
    [confidence] is 0, [has_enough_data] is [False] and the message
    explains what to log.  It returns it whatever the model file is, also
    a file on which the predictor would raise: the predictor is not
    run. *)
Theorem get_prediction_for_user_no_data (fs : model_file) (db : database)
    (u : Z) :
  (forall c, c ∈ cycles db -> user c = u ->
     cycle_length c = None \/ cycle_length c = Some 0%Z) ->
  get_prediction_for_user np_sqrt today fs db u =
    Ok {| predicted_length := None;
          predicted_date := None;
          confidence := 0;
          days_until := None;
          has_enough_data := false;
          message := "Log at least one complete cycle to get predictions";
          cycle_count := None |}.
Proof.
  intros H. unfold get_prediction_for_user.
  pose proof (elem_of_cycle_lengths db u) as Hin.
  destruct (get_user_cycle_data db u) as [cycle_lengths symptoms].
  destruct cycle_lengths as [| x l]; [reflexivity |].
  destruct (Hin x) as (c & n & Hc & Hu & Hn & Hz & _); [by left |].
  destruct (H c Hc Hu) as [E | E]; rewrite E in Hn; congruence.
Qed.


(** With no model file or a usable one, [predict_with_history] returns,
    and its confidence is in [[0, 1]]. *)
Lemma predict_with_history_returns (fs : model_file)
    (cycle_lengths : list Q) (user_age : Q)
    (symptoms : option (gmap string pyval)) :
  usable fs ->
  exists v c,
    predict_with_history np_sqrt fs cycle_lengths user_age symptoms
      = Ok (v, c) /\ 0 <= c /\ c <= 1.
Proof.
  intros Hfs. destruct fs as [d |].
  - rewrite predict_with_history_file.
    destruct (predict_cycle_length (Some d) _) as [[v c] | e] eqn:E.
    + exists v, c. split; [done |].
      by apply predict_cycle_length_range in E as (_ & _ & ?).
    + rewrite predict_cycle_length_file in E.
      specialize (Hfs d eq_refl). by destruct (feature_names d).
  - rewrite predict_with_history_no_file.
    destruct cycle_lengths; eexists _, _; (split; [reflexivity |]); lra.
Qed.

(** C4: with no model file or a usable one, [get_prediction_for_user]
    returns for every history of the user, and the confidence of its
    result lies in [[0, 1]].  When the user has completed cycles, the
    reported confidence is the confidence of the predictor, multiplied by
    0.7 when there are fewer than 3 completed cycles and left as it is
    when there are 3 or more, and then rounded to 2 decimal places. *)
Theorem get_prediction_for_user_confidence (fs : model_file)
    (db : database) (u : Z) :
  usable fs ->
  exists r,
    get_prediction_for_user np_sqrt today fs db u = Ok r /\
    (0 <= confidence r /\ confidence r <= 1) /\
    let '(cycle_lengths, symptoms) := get_user_cycle_data db u in
    cycle_lengths <> [] ->
    exists v c,
      predict_with_history np_sqrt fs cycle_lengths 25 (Some symptoms)
        = Ok (v, c) /\
      ((length cycle_lengths < 3)%nat ->
         confidence r = Py.round (c * (7 # 10)) 2) /\
      ((3 <= length cycle_lengths)%nat -> confidence r = Py.round c 2).
Proof.
  intros Hfs. unfold get_prediction_for_user.
  destruct (get_user_cycle_data db u) as [cycle_lengths symptoms].
  case_decide as Hlen.
  - destruct (predict_with_history_returns fs cycle_lengths 25
                (Some symptoms) Hfs) as (v & c & -> & Hc0 & Hc1).
    cbn [mbind result_bind bind].
    destruct (latest_cycle db u) as [last_cycle |];
      (eexists; split; [reflexivity |]); cbn [confidence];
      (split;
       [ case_decide; apply (round_between 0 1); change (inject_Z 0) with 0;
         change (inject_Z 1) with 1; lra
       | intros _; exists v, c; split; [done |];
         split; intros ?; case_decide; (done || lia) ]).
  - exists not_enough_data. split; [done |]. split; [done |].
    intros Hne. destruct cycle_lengths; [done | simpl in Hlen; lia].
Qed.
End ForecastFacts.

(** ** Cycle records and the cycle views *)

(** [calculate_cycle_length] on a cycle with an end date stores the number
    of days from the start date to the end date. *)
Lemma calculate_cycle_length_closed (self : Cycle) (db : database) (e : Z) :
  end_date self = Some e ->
  let '(self', db') := calculate_cycle_length self db in
  cycle_length self' = Some (e - start_date self)%Z /\
  end_date self' = Some e /\ start_date self' = start_date self /\
  db' = save self' db.
Proof. intros E. unfold calculate_cycle_length. by rewrite E. Qed.

(** [calculate_cycle_length] leaves an open cycle as it is. *)
Lemma calculate_cycle_length_open (self : Cycle) (db : database) :
  end_date self = None -> calculate_cycle_length self db = (self, db).
Proof. intros E. unfold calculate_cycle_length. by rewrite E. Qed.

Lemma pk_lt_next_pk (db : database) (c : Cycle) :
  c ∈ cycles db -> (pk c < next_pk db)%Z.
Proof.
  unfold next_pk. induction (cycles db) as [| c' l IH]; intros Hin.
  - by apply elem_of_nil in Hin.
  - rewrite fmap_cons. cbn [foldr].
    apply elem_of_cons in Hin as [-> | Hin]; [lia |].
    specialize (IH Hin). lia.
Qed.

Lemma latest_cycle_elem_of (db : database) (u : Z) (c : Cycle) :
  latest_cycle db u = Some c -> c ∈ cycles db /\ user c = u.
Proof.
  unfold latest_cycle, cycles_of. intros H.
  apply head_Some_elem_of, elem_of_order_by, list_elem_of_filter in H.
  by destruct H.
Qed.

(** What [save] does to the row of an instance that is stored. *)
Lemma save_stored (c c' : Cycle) (db : database) :
  c ∈ cycles db -> pk c' = pk c -> c' ∈ cycles (save c' db).
Proof.
  intros Hin Hpk. unfold save. cbn [cycles].
  rewrite decide_True.
  - apply list_elem_of_fmap. exists c. split; [| done].
    by rewrite decide_True.
  - apply Exists_exists. by exists c.
Qed.

(** [save] of an instance with a key of its own keeps the other rows. *)
Lemma save_other (c c' : Cycle) (db : database) :
  c ∈ cycles db -> pk c <> pk c' -> c ∈ cycles (save c' db).
Proof.
  intros Hin Hpk. unfold save. cbn [cycles]. case_decide.
  - apply list_elem_of_fmap. exists c. split; [| done].
    by rewrite decide_False.
  - apply elem_of_app. by left.
Qed.

(** The auto-close of [cycle_create]: when the latest cycle of the user is
    open, creating a cycle sets the end date of that cycle to the day before
    the new start, and leaves its [cycle_length] as it was: [Model.save]
    does not recompute it. *)
Lemma cycle_create_closes_previous (u : Z) (form : CycleForm)
    (db : database) (previous_cycle : Cycle) :
  latest_cycle db u = Some previous_cycle ->
  end_date previous_cycle = None ->
  exists c,
    c ∈ cycles (cycle_create u form db) /\
    pk c = pk previous_cycle /\
    start_date c = start_date previous_cycle /\
    end_date c = Some (form_start_date form - 1)%Z /\
    cycle_length c = cycle_length previous_cycle.
Proof.
  intros Hlatest Hopen. unfold cycle_create. rewrite Hlatest, Hopen.
  apply latest_cycle_elem_of in Hlatest as [Hin _].
  set (closed := MkCycle (pk previous_cycle) _ _ _ _ _).
  exists closed. split; [| done].
  assert (closed ∈ cycles (save closed db)) as Hsaved
    by (by apply (save_stored previous_cycle)).
  apply save_other; [done |].
  apply pk_lt_next_pk in Hsaved. cbn [pk]. lia.
Qed.

(** C6, the defect: a user has one open cycle that started on day 100, with
    no length; a cycle starting on day 128 is created.  The open cycle
    receives the end date 127, the day before the new start, and its
    [cycle_length] stays [None] instead of 27: nothing on this path calls
    [calculate_cycle_length], and [Cycle] does not override [save]. *)
Theorem cycle_create_stale_length :
  cycle_create 7 (MkCycleForm 128 None EmptyString)
    (MkDatabase [MkCycle 1 7 100 None None EmptyString] []) =
  MkDatabase [ MkCycle 1 7 100 (Some 127%Z) None EmptyString;
               MkCycle 2 7 128 None None EmptyString ] [].
Proof. reflexivity. Qed.

(** The same on [cycle_update]: an edited end date is stored with the old
    length. *)
Lemma cycle_update_stale_length (c : Cycle) (form : CycleForm)
    (db : database) :
  c ∈ cycles db ->
  exists c',
    c' ∈ cycles (cycle_update c form db) /\ pk c' = pk c /\
    end_date c' = form_end_date form /\ cycle_length c' = cycle_length c.
Proof.
  intros Hin. unfold cycle_update.
  set (edited := MkCycle (pk c) _ _ _ _ _).
  exists edited. split; [| done]. by apply (save_stored c).
Qed.

(** ** The dataset preparer *)

Section DatasetFacts.
Variable np_sqrt : Q -> Q.

Lemma length_groupby_transform (f : Pandas.series -> Pandas.series)
    (df : list row) :
  length (groupby_transform f df) = length df.
Proof. apply length_imap. Qed.

Lemma length_fillna (v : Q) (s : Pandas.series) :
  length (Pandas.fillna v s) = length s.
Proof. apply length_fmap. Qed.

(** A column of a frame assembled row by row from columns of its
    height. *)
Lemma imap_column (proj : feature_row -> Q) (g : nat -> row -> feature_row)
    (col : list Q) (df : list row) :
  (forall i r, proj (g i r) = default 0%Q (col !! i)) ->
  length col = length df ->
  proj <$> imap g df = col.
Proof.
  intros Hproj Hlen. apply list_eq. intros i.
  rewrite list_lookup_fmap, list_lookup_imap.
  destruct (df !! i) as [r |] eqn:E; simpl.
  - rewrite Hproj. apply lookup_lt_Some in E. rewrite <- Hlen in E.
    apply lookup_lt_is_Some in E as [q ->]. done.
  - symmetry. apply lookup_ge_None. rewrite Hlen.
    by apply lookup_ge_None.
Qed.

(** The columns [create_features] adds are the lag and rolling columns of
    the sorted frame with their NaN replaced: by 28 in the three lags and
    the rolling mean, by 2 in the rolling std. *)
Lemma create_features_columns (df : list row) :
  let out := create_features np_sqrt df in
  let sorted := sort_values df in
  source <$> out = sorted /\
  prev_cycle_length_1 <$> out = Pandas.fillna 28 (lag_column 1 sorted) /\
  prev_cycle_length_2 <$> out = Pandas.fillna 28 (lag_column 2 sorted) /\
  prev_cycle_length_3 <$> out = Pandas.fillna 28 (lag_column 3 sorted) /\
  rolling_mean_3 <$> out = Pandas.fillna 28 (rolling_mean_column sorted) /\
  rolling_std_3 <$> out =
    Pandas.fillna 2 (rolling_std_column np_sqrt sorted).
Proof.
  unfold create_features. cbv zeta. split.
  { apply list_eq. intros i. rewrite list_lookup_fmap, list_lookup_imap.
    by destruct (sort_values df !! i). }
  unfold lag_column, rolling_mean_column, rolling_std_column.
  repeat split; apply imap_column; try done;
    by rewrite length_fillna, length_groupby_transform.
Qed.

(** Row by row: a NaN becomes the default of its column, a value that is
    there is kept. *)
Lemma create_features_lookup (df : list row) (i : nat) (r : feature_row) :
  create_features np_sqrt df !! i = Some r ->
  let sorted := sort_values df in
  prev_cycle_length_1 r = default 28%Q (mjoin (lag_column 1 sorted !! i)) /\
  prev_cycle_length_2 r = default 28%Q (mjoin (lag_column 2 sorted !! i)) /\
  prev_cycle_length_3 r = default 28%Q (mjoin (lag_column 3 sorted !! i)) /\
  rolling_mean_3 r =
    default 28%Q (mjoin (rolling_mean_column sorted !! i)) /\
  rolling_std_3 r =
    default 2%Q (mjoin (rolling_std_column np_sqrt sorted !! i)).
Proof.
  intros Hr sorted.
  destruct (create_features_columns df) as (_ & H1 & H2 & H3 & H4 & H5).
  assert (forall (proj : feature_row -> Q) (v : Q) (col : Pandas.series),
            proj <$> create_features np_sqrt df = Pandas.fillna v col ->
            proj r = default v (mjoin (col !! i))) as Hcol.
  { intros proj v col Hc. apply (f_equal (fun l => l !! i)) in Hc.
    unfold Pandas.fillna in Hc.
    rewrite list_lookup_fmap, Hr, (list_lookup_fmap (default v)) in Hc.
    destruct (col !! i) as [x |]; by simplify_eq/=. }
  repeat split; by apply Hcol.
Qed.

(** C9 (as amended): in the frame [create_features] returns, every gap
    (NaN) of the three lag columns and of the rolling mean is filled with
    the default 28, and every gap of the rolling std is filled with the
    default 2. *)
Theorem create_features_gaps (df : list row) (i : nat) (r : feature_row) :
  create_features np_sqrt df !! i = Some r ->
  let sorted := sort_values df in
  (lag_column 1 sorted !! i = Some None -> prev_cycle_length_1 r = 28%Q) /\
  (lag_column 2 sorted !! i = Some None -> prev_cycle_length_2 r = 28%Q) /\
  (lag_column 3 sorted !! i = Some None -> prev_cycle_length_3 r = 28%Q) /\
  (rolling_mean_column sorted !! i = Some None -> rolling_mean_3 r = 28%Q)
  /\
  (rolling_std_column np_sqrt sorted !! i = Some None ->
     rolling_std_3 r = 2%Q).
Proof.
  intros Hr sorted.
  destruct (create_features_lookup df i r Hr) as (H1 & H2 & H3 & H4 & H5).
  fold sorted in H1, H2, H3, H4, H5.
  repeat split; intros E; rewrite E in *; done.
Qed.


Lemma groupby_transform_lookup (f : Pandas.series -> Pandas.series)
    (df : list row) (i : nat) (r : row) :
  df !! i = Some r ->
  groupby_transform f df !! i =
    Some (mjoin (f (row_cycle_length <$>
                      filter (fun r' => user_id r' = user_id r) df)
                 !! position df i r)).
Proof.
  intros E. unfold groupby_transform. by rewrite list_lookup_imap, E.
Qed.

Lemma position_lt_group (df : list row) (i : nat) (r : row) :
  df !! i = Some r ->
  (position df i r <
     length (filter (fun r' => user_id r' = user_id r) df))%nat.
Proof.
  intros E. unfold position.
  rewrite <- (take_drop_middle df i r E) at 2.
  rewrite filter_app, filter_cons, decide_True by done.
  rewrite length_app. simpl. lia.
Qed.

Lemma shift_lookup_lt (k p : nat) (s : Pandas.series) :
  (p < k)%nat -> (p < length s)%nat -> Pandas.shift k s !! p = Some None.
Proof.
  intros Hk Hp. unfold Pandas.shift.
  rewrite lookup_take_lt by done.
  rewrite lookup_app_l by (by rewrite length_replicate).
  by apply lookup_replicate.
Qed.

(** The first [k] cycles of a user have no lag-[k] value. *)
Lemma lag_column_gap (k : nat) (df : list row) (i : nat) (r : row) :
  df !! i = Some r -> (position df i r < k)%nat ->
  lag_column k df !! i = Some None.
Proof.
  intros E Hk. unfold lag_column.
  rewrite (groupby_transform_lookup _ _ _ _ E).
  rewrite shift_lookup_lt; [done | done |].
  rewrite length_fmap. by apply position_lt_group.
Qed.

Lemma length_rolling (size : nat) (agg : list Q -> option Q)
    (s : Pandas.series) :
  length (Pandas.rolling size agg s) = length s.
Proof. apply length_imap. Qed.

(** The first cycle of a user has no rolling mean and no rolling std. *)
Lemma rolling_columns_gap (df : list row) (i : nat) (r : row) :
  df !! i = Some r -> position df i r = 0%nat ->
  rolling_mean_column df !! i = Some None /\
  rolling_std_column np_sqrt df !! i = Some None.
Proof.
  intros E Hp. unfold rolling_mean_column, rolling_std_column.
  rewrite !(groupby_transform_lookup _ _ _ _ E), Hp.
  pose proof (position_lt_group df i r E) as Hlt. rewrite Hp in Hlt.
  rewrite !shift_lookup_lt; [done | ..];
    rewrite ?length_rolling, ?length_fmap; lia.
Qed.

(** The earliest cycle of each user receives the defaults: 28 in the
    three lags and in the rolling mean, 2 in the rolling std. *)
Lemma create_features_first_cycle (df : list row) (i : nat)
    (r : feature_row) :
  create_features np_sqrt df !! i = Some r ->
  position (sort_values df) i (source r) = 0%nat ->
  prev_cycle_length_1 r = 28%Q /\ prev_cycle_length_2 r = 28%Q /\
  prev_cycle_length_3 r = 28%Q /\ rolling_mean_3 r = 28%Q /\
  rolling_std_3 r = 2%Q.
Proof.
  intros Hr Hp.
  destruct (create_features_lookup df i r Hr) as (H1 & H2 & H3 & H4 & H5).
  destruct (create_features_columns df) as (Hsrc & _).
  apply (f_equal (fun l => l !! i)) in Hsrc.
  rewrite list_lookup_fmap, Hr in Hsrc. simpl in Hsrc. symmetry in Hsrc.
  destruct (rolling_columns_gap _ _ _ Hsrc Hp) as [Hm Hs].
  rewrite (lag_column_gap 1 _ _ _ Hsrc) in H1 by lia.
  rewrite (lag_column_gap 2 _ _ _ Hsrc) in H2 by lia.
  rewrite (lag_column_gap 3 _ _ _ Hsrc) in H3 by lia.
  rewrite Hm in H4. rewrite Hs in H5. done.
Qed.
End DatasetFacts.

(** * Further properties *)

(** ** The predictor, beyond the claims *)

Section PredictorMore.
Variable np_sqrt : Q -> Q.
Local Open Scope Q_scope.

(** [predict_cycle_length] raises the not-found error exactly when there is
    no model file; and whatever the feature dictionary and the raw answer
    of the model, a length it returns lies in [[21, 40]] with one decimal
    place, and the confidence it returns lies in [[0, 1]]. *)
Theorem predict_cycle_length_contract (fs : model_file)
    (features_dict : gmap string pyval) :
  (predict_cycle_length fs features_dict = Raise FileNotFoundError
   <-> fs = None) /\
  (forall v c, predict_cycle_length fs features_dict = Ok (v, c) ->
     (21 <= v /\ v <= 40) /\ (exists k : Z, v * 10 == inject_Z k) /\
     (0 <= c /\ c <= 1)).
Proof.
  split; [| intros v c; apply predict_cycle_length_range].
  destruct fs as [d |]; [| done].
  rewrite predict_cycle_length_file.
  by destruct (feature_names d).
Qed.

Lemma features_row_ext (f g : gmap string pyval) (names : list string) :
  (forall name, name ∈ names ->
     py_float (let v := default (PyNum 0) (f !! name) in
               if is_not_none v then v else PyNum 0) =
     py_float (let v := default (PyNum 0) (g !! name) in
               if is_not_none v then v else PyNum 0)) ->
  features_row f names = features_row g names.
Proof.
  intros H. unfold features_row. apply map_ext_in. intros name Hin.
  apply H. by apply list_elem_of_In.
Qed.

Lemma available_features_ext (f g : gmap string pyval)
    (names : list string) :
  (forall name, name ∈ names ->
     is_not_none (default PyNone (f !! name)) =
     is_not_none (default PyNone (g !! name))) ->
  available_features f names = available_features g names.
Proof.
  intros H. unfold available_features.
  induction names as [| name names IH]; [done |].
  rewrite !filter_cons. rewrite (H name) by (by left).
  specialize (IH ltac:(intros n Hn; apply H; by right)).
  case_decide; simpl; by rewrite IH.
Qed.

Lemma available_features_mono (f g : gmap string pyval)
    (names : list string) :
  (forall name, name ∈ names ->
     is_not_none (default PyNone (f !! name)) = true ->
     is_not_none (default PyNone (g !! name)) = true) ->
  (available_features f names <= available_features g names)%nat.
Proof.
  intros H. unfold available_features.
  induction names as [| name names IH]; [done |].
  rewrite !filter_cons.
  specialize (IH ltac:(intros n Hn; apply H; by right)).
  specialize (H name ltac:(by left)).
  repeat case_decide; simpl; try lia. by destruct H.
Qed.

(** A feature that is [None] in the dictionary is treated as a feature the
    dictionary does not have: the two calls give the same result, error or
    not. *)
Theorem predict_cycle_length_none_is_missing (fs : model_file)
    (features_dict : gmap string pyval) (key : string) :
  predict_cycle_length fs (<[key := PyNone]> features_dict) =
  predict_cycle_length fs (delete key features_dict).
Proof.
  destruct fs as [d |]; [| done].
  rewrite !predict_cycle_length_file.
  destruct (feature_names d) as [| n ns] eqn:E; [done |].
  rewrite <- E.
  rewrite (features_row_ext (<[key := PyNone]> features_dict)
             (delete key features_dict)).
  - rewrite (available_features_ext (<[key := PyNone]> features_dict)
               (delete key features_dict)); [done |].
    intros name _. destruct (decide (key = name)) as [-> | Hne].
    + by rewrite lookup_insert_eq, lookup_delete_eq.
    + by rewrite lookup_insert_ne, lookup_delete_ne.
  - intros name _. destruct (decide (key = name)) as [-> | Hne].
    + by rewrite lookup_insert_eq, lookup_delete_eq.
    + by rewrite lookup_insert_ne, lookup_delete_ne.
Qed.

(** Supplying 0 for a feature the dictionary does not have leaves the
    predicted length as it is and can only raise the confidence: the model
    is fed 0 for a missing feature. *)
Theorem predict_cycle_length_missing_is_zero (fs : model_file)
    (features_dict : gmap string pyval) (key : string) (v c : Q) :
  features_dict !! key = None ->
  predict_cycle_length fs features_dict = Ok (v, c) ->
  exists c',
    predict_cycle_length fs (<[key := PyNum 0]> features_dict) = Ok (v, c')
    /\ c <= c'.
Proof.
  intros Hkey. destruct fs as [d |]; [| done].
  rewrite !predict_cycle_length_file.
  destruct (feature_names d) as [| n ns] eqn:E; [done |].
  rewrite <- E. intros [= <- <-].
  rewrite (features_row_ext (<[key := PyNum 0]> features_dict) features_dict).
  - eexists. split; [reflexivity |].
    pose proof (of_nat_pos (length (feature_names d))) as Hp.
    rewrite E in Hp at 1. specialize (Hp ltac:(simpl; lia)).
    apply Qmult_le_compat_r; [| apply Qlt_le_weak, Qinv_lt_0_compat, Hp].
    apply of_nat_le, available_features_mono.
    intros name _. destruct (decide (key = name)) as [-> | Hne].
    + by rewrite lookup_insert_eq.
    + by rewrite lookup_insert_ne.
  - intros name _. destruct (decide (key = name)) as [-> | Hne].
    + by rewrite lookup_insert_eq, Hkey.
    + by rewrite lookup_insert_ne.
Qed.

(** With a model file only the last three cycle lengths count: any older
    history in front of them leaves the result of [predict_with_history]
    unchanged. *)
Theorem predict_with_history_last_three (d : model_data) (older : list Q)
    (x y z : Q) (user_age : Q) (symptoms : option (gmap string pyval)) :
  predict_with_history np_sqrt (Some d) (older ++ [x; y; z]) user_age
    symptoms =
  predict_with_history np_sqrt (Some d) [x; y; z] user_age symptoms.
Proof.
  rewrite !predict_with_history_file. unfold build_features.
  rewrite history_features_3.
  pose proof (history_features_3 np_sqrt [] x y z) as H.
  rewrite app_nil_l in H. by rewrite H.
Qed.

Lemma sum_between (a b : Q) (l : list Q) :
  Forall (fun x => a <= x /\ x <= b) l ->
  of_nat (length l) * a <= Py.sum l /\ Py.sum l <= of_nat (length l) * b.
Proof.
  induction 1 as [| x l [Ha Hb] _ [IHa IHb]].
  - change (Py.sum []) with 0. change (of_nat (length [])) with 0. lra.
  - change (Py.sum (x :: l)) with (x + Py.sum l).
    assert (of_nat (length (x :: l)) == 1 + of_nat (length l)) as ->.
    { unfold of_nat. simpl length. rewrite Nat2Z.inj_succ, <- Z.add_1_l.
      by rewrite inject_Z_plus. }
    lra.
Qed.

(** The mean of a list that is not empty lies between bounds of its
    elements. *)
Lemma mean_between (a b : Q) (l : list Q) :
  l <> [] -> Forall (fun x => a <= x /\ x <= b) l ->
  a <= Py.mean l /\ Py.mean l <= b.
Proof.
  intros Hne Hall. destruct (sum_between a b l Hall) as [Hlo Hhi].
  assert (0 < of_nat (length l)) as Hp.
  { apply of_nat_pos. destruct l; [done | simpl; lia]. }
  unfold Py.mean. fold (of_nat (length l)). split.
  - apply Qle_shift_div_l; [done | lra].
  - apply Qle_shift_div_r; [done | lra].
Qed.

(** Without a model file the answer stays within the history: when every
    cycle length lies between two whole numbers of days, so does the
    predicted length.  A history within [[21, 40]] gives a fallback within
    [[21, 40]]. *)
Theorem predict_with_history_fallback_between (a b : Z)
    (cycle_lengths : list Q) (user_age : Q)
    (symptoms : option (gmap string pyval)) :
  cycle_lengths <> [] ->
  Forall (fun x => inject_Z a <= x /\ x <= inject_Z b) cycle_lengths ->
  exists v,
    predict_with_history np_sqrt None cycle_lengths user_age symptoms
      = Ok (v, 1 # 2) /\
    inject_Z a <= v /\ v <= inject_Z b.
Proof.
  intros Hne Hall. rewrite predict_with_history_no_file.
  destruct cycle_lengths as [| x l]; [done |].
  eexists. split; [reflexivity |].
  destruct (mean_between _ _ (x :: l) Hne Hall) as [Hlo Hhi].
  by apply round_between.
Qed.
End PredictorMore.

(** ** The forecast service, beyond the claims *)

Section OrderByMore.
Context {A : Type} (key : A -> Z).

Lemma head_insert_by (x : A) (l : list A) :
  head (insert_by key x l) =
    match head l with
    | Some y => if decide (key x <= key y)%Z then Some x else Some y
    | None => Some x
    end.
Proof. destruct l as [| y l]; simpl; [done |]. by case_decide. Qed.

(** The first row of [order_by] has the smallest key. *)
Lemma order_by_head_min (l : list A) (x : A) :
  head (order_by key l) = Some x ->
  forall y, y ∈ l -> (key x <= key y)%Z.
Proof.
  revert x. induction l as [| z l IH]; intros x Hx y Hy.
  - by apply elem_of_nil in Hy.
  - simpl in Hx. rewrite head_insert_by in Hx.
    destruct (head (order_by key l)) as [m |] eqn:Em.
    + specialize (IH m eq_refl).
      apply elem_of_cons in Hy as [-> | Hy].
      * case_decide; simplify_eq; lia.
      * specialize (IH y Hy). case_decide; simplify_eq; lia.
    + simplify_eq. apply elem_of_cons in Hy as [-> | Hy]; [lia |].
      apply head_None in Em.
      assert (y ∈ order_by key l) as Hin by (by apply elem_of_order_by).
      rewrite Em in Hin. by apply elem_of_nil in Hin.
Qed.

Lemma order_by_nil_iff (l : list A) : order_by key l = [] <-> l = [].
Proof.
  split; [| by intros ->].
  intros H. apply Permutation_nil_r. rewrite <- H.
  symmetry. apply order_by_Permutation.
Qed.
End OrderByMore.

(** [latest_cycle] answers [None] exactly for a user without cycles;
    otherwise it answers a cycle of the user, and no cycle of the user
    starts later. *)
Theorem latest_cycle_latest (db : database) (u : Z) :
  (latest_cycle db u = None <->
   forall c, c ∈ cycles db -> user c <> u) /\
  (forall c, latest_cycle db u = Some c ->
     c ∈ cycles db /\ user c = u /\
     forall c', c' ∈ cycles db -> user c' = u ->
       (start_date c' <= start_date c)%Z).
Proof.
  split.
  - unfold latest_cycle, cycles_of. rewrite head_None, order_by_nil_iff.
    split.
    + intros H c Hc Hu.
      assert (c ∈ filter (fun c => user c = u) (cycles db)) as Hin
        by (by apply list_elem_of_filter).
      rewrite H in Hin. by apply elem_of_nil in Hin.
    + intros H. apply elem_of_nil_inv. intros c Hc.
      apply list_elem_of_filter in Hc as [Hu Hc]. by apply (H c).
  - intros c Hc. destruct (latest_cycle_elem_of db u c Hc) as [Hin Hu].
    repeat split; [done | done |]. intros c' Hin' Hu'.
    unfold latest_cycle in Hc.
    pose proof (order_by_head_min _ _ _ Hc c') as Hmin.
    specialize (Hmin ltac:(by apply list_elem_of_filter)).
    simpl in Hmin. lia.
Qed.

Section ForecastMore.
Variable np_sqrt : Q -> Q.
Variable today : Z.
Local Open Scope Q_scope.

Lemma flow_map_range (s : string) : 0 <= flow_map s /\ flow_map s <= 3.
Proof. unfold flow_map. repeat case_decide; split; lra. Qed.

Lemma average_between (a b : Q) (l : list Q) :
  l <> [] -> Forall (fun x => a <= x /\ x <= b) l ->
  a <= average l /\ average l <= b.
Proof. apply mean_between. Qed.

Lemma symptom_summary_entries (db : database) (u : Z) :
  let symptoms := (get_user_cycle_data db u).2 in
  (forall key,
     key ∈ ["cramps"; "headache"; "mood_swings"; "fatigue"; "bloating"] ->
     exists b, symptoms !! key = Some (PyBool b)) /\
  (exists q, symptoms !! "flow_encoded" = Some (PyNum q) /\
             0 <= q /\ q <= 3) /\
  (exists q, symptoms !! "period_length" = Some (PyNum q) /\
             1 <= q /\ q <= 10).
Proof.
  unfold get_user_cycle_data. cbn [snd].
  set (cycles := order_by start_date _).
  set (recent_logs := take 30 _).
  set (period_lengths := omap _ cycles).
  assert (Forall (fun x => 1 <= x /\ x <= 10) period_lengths) as Hp.
  { apply Forall_forall. intros x Hx.
    apply list_elem_of_omap in Hx as (c & _ & Hx).
    destruct (end_date c) as [e |]; [| done].
    case_decide as Hr; [| done]. injection Hx as <-.
    change 1 with (inject_Z 1). change 10 with (inject_Z 10).
    rewrite <- !Zle_Qle. lia. }
  assert (forall logs : list DailyLog,
            Forall (fun x => 0 <= x /\ x <= 3)
              ((fun l => flow_map (flow_intensity l)) <$> logs)) as Hf.
  { intros logs. apply Forall_fmap, Forall_forall. intros l _.
    apply flow_map_range. }
  cbn [list_to_map foldr fst snd curry uncurry].
  destruct recent_logs as [| log logs] eqn:El;
    destruct period_lengths as [| p ps] eqn:Ep.
  - split; [| split].
    + intros key Hk. repeat (apply elem_of_cons in Hk as [-> | Hk]);
        [.. | by apply elem_of_nil in Hk]; eexists; by simplify_map_eq.
    + exists 2. split; [by simplify_map_eq | lra].
    + exists 5. split; [by simplify_map_eq | lra].
  - split; [| split].
    + intros key Hk. repeat (apply elem_of_cons in Hk as [-> | Hk]);
        [.. | by apply elem_of_nil in Hk]; eexists; by simplify_map_eq.
    + exists 2. split; [by simplify_map_eq | lra].
    + eexists. split; [by simplify_map_eq |]. by apply average_between.
  - split; [| split].
    + intros key Hk. repeat (apply elem_of_cons in Hk as [-> | Hk]);
        [.. | by apply elem_of_nil in Hk]; eexists; by simplify_map_eq.
    + eexists. split; [by simplify_map_eq |].
      apply average_between; [done | apply (Hf (log :: logs))].
    + exists 5. split; [by simplify_map_eq | lra].
  - split; [| split].
    + intros key Hk. repeat (apply elem_of_cons in Hk as [-> | Hk]);
        [.. | by apply elem_of_nil in Hk]; eexists; by simplify_map_eq.
    + eexists. split; [by simplify_map_eq |].
      apply average_between; [done | apply (Hf (log :: logs))].
    + eexists. split; [by simplify_map_eq |]. by apply average_between.
Qed.

(** The symptom summary of [get_user_cycle_data] is complete whatever the
    store holds: the five flags are booleans, [flow_encoded] is a number in
    [[0, 3]] and [period_length] is a number in [[1, 10]]. *)
Theorem get_user_cycle_data_summary (db : database) (u : Z) :
  let symptoms := (get_user_cycle_data db u).2 in
  (forall key,
     key ∈ ["cramps"; "headache"; "mood_swings"; "fatigue"; "bloating"] ->
     exists b, symptoms !! key = Some (PyBool b)) /\
  (exists q, symptoms !! "flow_encoded" = Some (PyNum q) /\
             0 <= q /\ q <= 3) /\
  (exists q, symptoms !! "period_length" = Some (PyNum q) /\
             1 <= q /\ q <= 10).
Proof. apply symptom_summary_entries. Qed.

Lemma summary_numeric (db : database) (u : Z) :
  numeric_symptoms (get_user_cycle_data db u).2.
Proof.
  destruct (symptom_summary_entries db u)
    as (_ & (q1 & H1 & _) & (q2 & H2 & _)).
  split; [by rewrite H1 | by rewrite H2].
Qed.

Lemma rint_Qeq (x y : Q) : x == y -> Py.rint x = Py.rint y.
Proof.
  intros H. unfold Py.rint. rewrite (Qfloor_comp x y H).
  assert (Qcompare (x - inject_Z (Qfloor y)) (1 # 2) =
          Qcompare (y - inject_Z (Qfloor y)) (1 # 2)) as ->; [| done].
  apply Qcompare_comp; [by rewrite H | done].
Qed.

Lemma round_Qeq (x y : Q) (n : nat) : x == y -> Py.round x n = Py.round y n.
Proof.
  intros H. unfold Py.round. rewrite (rint_Qeq (x * Py.pow10 n)
    (y * Py.pow10 n)); [done | by rewrite H].
Qed.

Lemma tier_Qeq (x y : Q) : x == y -> tier x = tier y.
Proof.
  intros H. unfold tier.
  destruct (Qlt_le_dec x (7 # 10)), (Qlt_le_dec y (7 # 10)); try lra;
    [| done].
  destruct (Qlt_le_dec x (1 # 2)), (Qlt_le_dec y (1 # 2)); try lra; done.
Qed.

(** With a model file that asks for expected features and numeric
    symptoms, [predict_with_history] returns with confidence 1. *)
Lemma predict_with_history_trained (d : model_data) (cycle_lengths : list Q)
    (user_age : Q) (symptoms : gmap string pyval) :
  numeric_symptoms symptoms ->
  feature_names d <> [] ->
  feature_names d ⊆ get_feature_columns ->
  exists v c,
    predict_with_history np_sqrt (Some d) cycle_lengths user_age
      (Some symptoms) = Ok (v, c) /\ c == 1 /\ 21 <= v /\ v <= 40.
Proof.
  intros Hs Hne Hsub.
  rewrite predict_with_history_file.
  destruct (predict_cycle_length (Some d) _) as [[v c] | e] eqn:E.
  - exists v, c. split; [done |].
    pose proof (predict_cycle_length_range _ _ _ _ E) as ([? ?] & _ & _).
    split; [| done].
    rewrite predict_cycle_length_file in E.
    destruct (feature_names d) as [| name names] eqn:En; [done |].
    injection E as _ <-.
    rewrite available_features_all.
    + pose proof (of_nat_pos (length (name :: names)) ltac:(simpl; lia)).
      cbn [length] in *. field. lra.
    + intros n Hn. apply build_features_complete; [done |].
      by apply Hsub.
  - rewrite predict_cycle_length_file in E. by destruct (feature_names d).
Qed.

(** A user with a completed cycle has a latest cycle. *)
Lemma latest_cycle_exists (db : database) (u : Z) :
  (get_user_cycle_data db u).1 <> [] ->
  exists last, latest_cycle db u = Some last.
Proof.
  intros Hne.
  destruct ((get_user_cycle_data db u).1) as [| x l] eqn:E; [done |].
  destruct (elem_of_cycle_lengths db u x) as (c & _ & Hc & Hu & _).
  { rewrite E. by left. }
  destruct (latest_cycle db u) as [last |] eqn:El; [by exists last |].
  unfold latest_cycle, cycles_of in El.
  apply head_None, order_by_nil_iff in El.
  assert (c ∈ filter (fun c => user c = u) (cycles db)) as Hin
    by (by apply list_elem_of_filter).
  rewrite El in Hin. by apply elem_of_nil in Hin.
Qed.

(** The forecast for a user with completed cycles, piece by piece. *)
Lemma forecast_shape (fs : model_file) (db : database) (u : Z) :
  (get_user_cycle_data db u).1 <> [] ->
  forall v c,
    predict_with_history np_sqrt fs (get_user_cycle_data db u).1 25
      (Some (get_user_cycle_data db u).2) = Ok (v, c) ->
    exists last,
      latest_cycle db u = Some last /\
      get_prediction_for_user np_sqrt today fs db u =
        let n := length (get_user_cycle_data db u).1 in
        let c' := if decide (n < 3)%nat then c * (7 # 10) else c in
        Ok (MkForecast (Some v)
              (Some (start_date last + Py.int v)%Z)
              (Py.round c' 2)
              (Some (start_date last + Py.int v - today)%Z)
              true (tier c') (Some n)).
Proof.
  intros Hne v c Hp.
  destruct (latest_cycle_exists db u Hne) as [last Hlast].
  exists last. split; [done |].
  unfold get_prediction_for_user.
  destruct (get_user_cycle_data db u) as [cycle_lengths symptoms].
  cbn [fst snd] in *.
  rewrite decide_True by (destruct cycle_lengths; [done | simpl; lia]).
  rewrite Hp. cbn [mbind result_bind bind]. by rewrite Hlast.
Qed.

(** With a model file saved by training (a list of expected feature names
    that is not empty), the forecast for a user with completed cycles is
    always reported with high confidence: the confidence is 0.7 with fewer
    than 3 completed cycles and 1 with 3 or more. *)
Theorem get_prediction_for_user_trained (d : model_data) (db : database)
    (u : Z) :
  feature_names d <> [] ->
  feature_names d ⊆ get_feature_columns ->
  (get_user_cycle_data db u).1 <> [] ->
  exists r,
    get_prediction_for_user np_sqrt today (Some d) db u = Ok r /\
    has_enough_data r = true /\
    message r = "High confidence prediction" /\
    ((length (get_user_cycle_data db u).1 < 3)%nat ->
       confidence r == 7 # 10) /\
    ((3 <= length (get_user_cycle_data db u).1)%nat -> confidence r == 1).
Proof.
  intros Hne Hsub Hcl.
  destruct (predict_with_history_trained d (get_user_cycle_data db u).1 25
              (get_user_cycle_data db u).2 (summary_numeric db u) Hne Hsub)
    as (v & c & Hp & Hc & _).
  destruct (forecast_shape (Some d) db u Hcl v c Hp) as (last & _ & ->).
  cbv zeta. eexists. split; [reflexivity |]. cbn [has_enough_data message
    confidence]. split; [done |].
  case_decide as Hn.
  - rewrite (tier_Qeq _ (7 # 10)) by (rewrite Hc; lra).
    rewrite (round_Qeq _ (7 # 10)) by (rewrite Hc; lra).
    split; [done |]. split; [done | lia].
  - rewrite (tier_Qeq _ 1) by done. rewrite (round_Qeq _ 1) by done.
    split; [done |]. split; [lia | done].
Qed.

(** Without a model file the forecast for a user with completed cycles is
    never reported with high confidence: the confidence is 0.35 with the
    low-confidence message for fewer than 3 completed cycles, and 0.5 with
    the moderate-confidence message for 3 or more. *)
Theorem get_prediction_for_user_untrained (db : database) (u : Z) :
  (get_user_cycle_data db u).1 <> [] ->
  exists r,
    get_prediction_for_user np_sqrt today None db u = Ok r /\
    has_enough_data r = true /\
    ((length (get_user_cycle_data db u).1 < 3)%nat ->
       confidence r == 35 # 100 /\
       message r = "Low confidence - based on limited data") /\
    ((3 <= length (get_user_cycle_data db u).1)%nat ->
       confidence r == 1 # 2 /\
       message r =
         "Moderate confidence - log more cycles for better accuracy").
Proof.
  intros Hcl.
  pose proof (predict_with_history_no_file np_sqrt
                (get_user_cycle_data db u).1 25
                (Some (get_user_cycle_data db u).2)) as Hp.
  destruct ((get_user_cycle_data db u).1) as [| x l] eqn:E; [done |].
  rewrite <- E in Hp.
  destruct (forecast_shape None db u ltac:(by rewrite E) _ _ Hp)
    as (last & _ & ->).
  rewrite E. cbv zeta. eexists. split; [reflexivity |].
  cbn [has_enough_data message confidence]. split; [done |].
  case_decide as Hn.
  - split; [intros _ | intros ?; lia].
    split; [by vm_compute | reflexivity].
  - split; [intros ?; lia | intros _].
    split; [by vm_compute | reflexivity].
Qed.

Lemma int_between (a b : Z) (x : Q) :
  (0 <= a)%Z -> inject_Z a <= x -> x <= inject_Z b ->
  (a <= Py.int x <= b)%Z.
Proof.
  intros Ha Hlo Hhi. unfold Py.int.
  assert (0 <= x) as H0.
  { apply Qle_trans with (inject_Z a); [| done].
    change 0 with (inject_Z 0). by rewrite <- Zle_Qle. }
  destruct (Qlt_le_dec x 0); [lra |].
  rewrite <- (Qfloor_Z a), <- (Qfloor_Z b).
  split; by apply Qfloor_resp_le.
Qed.

(** Whenever a forecast has enough data, it has a date: the start of the
    latest cycle of the user plus the whole days of the predicted length,
    and [days_until] is that date minus today.  With a model file the date
    falls 21 to 40 days after that start. *)
Theorem get_prediction_for_user_date (fs : model_file) (db : database)
    (u : Z) (r : forecast) :
  get_prediction_for_user np_sqrt today fs db u = Ok r ->
  has_enough_data r = true ->
  exists last v,
    latest_cycle db u = Some last /\
    predicted_length r = Some v /\
    predicted_date r = Some (start_date last + Py.int v)%Z /\
    days_until r = Some (start_date last + Py.int v - today)%Z /\
    (fs <> None -> (21 <= Py.int v <= 40)%Z).
Proof.
  intros Hr Henough.
  destruct ((get_user_cycle_data db u).1) as [| x l] eqn:E.
  { unfold get_prediction_for_user in Hr.
    destruct (get_user_cycle_data db u) as [cl sym]. cbn [fst] in E.
    subst cl. simpl in Hr. injection Hr as <-. done. }
  assert ((get_user_cycle_data db u).1 <> []) as Hne by (by rewrite E).
  destruct (predict_with_history np_sqrt fs (get_user_cycle_data db u).1 25
              (Some (get_user_cycle_data db u).2)) as [[v c] | e] eqn:Hp.
  - destruct (forecast_shape fs db u Hne v c Hp) as (last & Hlast & Hf).
    rewrite Hf in Hr. cbv zeta in Hr. injection Hr as <-.
    exists last, v. do 4 (split; [done |]).
    intros Hfs. destruct fs as [d |]; [| done].
    rewrite predict_with_history_file in Hp.
    apply predict_cycle_length_range in Hp as ([? ?] & _ & _).
    by apply (int_between 21 40).
  - unfold get_prediction_for_user in Hr.
    destruct (get_user_cycle_data db u) as [cl sym]. cbn [fst snd] in *.
    rewrite decide_True in Hr by (subst cl; simpl; lia).
    rewrite Hp in Hr. done.
Qed.

Lemma filter_app_none {A : Type} (P : A -> Prop) `{forall x, Decision (P x)}
    (l extra : list A) :
  Forall (fun x => ~ P x) extra -> filter P (l ++ extra) = filter P l.
Proof.
  intros Hx. rewrite filter_app.
  assert (filter P extra = []) as ->; [| by rewrite app_nil_r].
  induction Hx as [| x extra Hx _ IH]; [done |].
  by rewrite filter_cons, decide_False.
Qed.

(** The forecast of a user reads nothing of the other users: cycles of
    other users, and logs that belong to no cycle of the user, can be added
    to the store without changing the forecast. *)
Theorem get_prediction_for_user_isolation (fs : model_file) (db : database)
    (u : Z) (other_cycles : list Cycle) (other_logs : list DailyLog) :
  Forall (fun c => user c <> u) other_cycles ->
  Forall (fun l => ~ Exists (fun c => pk c = cycle l /\ user c = u)
                      (cycles db)) other_logs ->
  get_prediction_for_user np_sqrt today fs
    (MkDatabase (cycles db ++ other_cycles) (daily_logs db ++ other_logs)) u
  = get_prediction_for_user np_sqrt today fs db u.
Proof.
  intros Hc Hl.
  set (db' := MkDatabase _ _).
  assert (cycles_of db' u = cycles_of db u) as Hcycles
    by (by apply filter_app_none).
  assert (forall l, Exists (fun c => pk c = cycle l /\ user c = u) (cycles db')
                    <-> Exists (fun c => pk c = cycle l /\ user c = u)
                          (cycles db)) as Hex.
  { intros l. subst db'. cbn [cycles]. rewrite Exists_app. split; [| by left].
    intros [? | Hx]; [done |]. apply Exists_exists in Hx as (c & Hin & _ & Hu).
    rewrite Forall_forall in Hc. by destruct (Hc c Hin). }
  assert (daily_logs_of db' u = daily_logs_of db u) as Hlogs.
  { unfold daily_logs_of.
    rewrite (list_filter_iff _ (fun l => Exists (fun c => pk c = cycle l /\
      user c = u) (cycles db))) by apply Hex.
    subst db'. cbn [daily_logs]. by apply filter_app_none. }
  unfold get_prediction_for_user, get_user_cycle_data, latest_cycle.
  by rewrite Hcycles, Hlogs.
Qed.
End ForecastMore.

(** ** The cycle views, beyond the claims *)

Lemma pk_inj (l : list Cycle) (c c' : Cycle) :
  NoDup (pk <$> l) -> c ∈ l -> c' ∈ l -> pk c = pk c' -> c = c'.
Proof.
  induction l as [| x l IH]; intros Hnd Hc Hc' Hpk.
  - by apply elem_of_nil in Hc.
  - rewrite fmap_cons in Hnd. apply NoDup_cons in Hnd as [Hx Hnd].
    apply elem_of_cons in Hc as [-> | Hc];
      apply elem_of_cons in Hc' as [-> | Hc']; [done | | | by apply IH].
    + exfalso. apply Hx. rewrite Hpk. by apply list_elem_of_fmap_2.
    + exfalso. apply Hx. rewrite <- Hpk. by apply list_elem_of_fmap_2.
Qed.

(** What [save] stores for an instance whose key is in the table. *)
Lemma cycles_save_stored (c' : Cycle) (db : database) :
  Exists (fun c => pk c = pk c') (cycles db) ->
  cycles (save c' db) =
    (fun c => if decide (pk c = pk c') then c' else c) <$> cycles db.
Proof. intros H. unfold save. cbn [cycles]. by rewrite decide_True. Qed.

(** What [save] stores for an instance with a new key. *)
Lemma cycles_save_new (c' : Cycle) (db : database) :
  ~ Exists (fun c => pk c = pk c') (cycles db) ->
  cycles (save c' db) = cycles db ++ [c'].
Proof. intros H. unfold save. cbn [cycles]. by rewrite decide_False. Qed.

Lemma daily_logs_save (c' : Cycle) (db : database) :
  daily_logs (save c' db) = daily_logs db.
Proof. reflexivity. Qed.

Lemma pks_save_stored (c' : Cycle) (db : database) :
  Exists (fun c => pk c = pk c') (cycles db) ->
  pk <$> cycles (save c' db) = pk <$> cycles db.
Proof.
  intros H. rewrite cycles_save_stored by done.
  rewrite <- list_fmap_compose. apply list_fmap_ext.
  intros i c _. simpl. by case_decide.
Qed.


Lemma next_pk_fresh (db : database) :
  ~ Exists (fun c => pk c = next_pk db) (cycles db).
Proof.
  intros H. apply Exists_exists in H as (c & Hc & Hpk).
  apply pk_lt_next_pk in Hc. lia.
Qed.

Lemma next_pk_pks (db db' : database) :
  pk <$> cycles db' = pk <$> cycles db -> next_pk db' = next_pk db.
Proof. intros H. unfold next_pk. by rewrite H. Qed.

Lemma filter_fmap_skip {A : Type} (P : A -> Prop)
    `{forall x, Decision (P x)} (f : A -> A) (l : list A) :
  (forall x, x ∈ l -> f x = x \/ (~ P x /\ ~ P (f x))) ->
  filter P (f <$> l) = filter P l.
Proof.
  induction l as [| x l IH]; intros Hf; [done |].
  rewrite fmap_cons, !filter_cons.
  rewrite IH by (intros y Hy; apply Hf; by right).
  destruct (Hf x ltac:(by left)) as [-> | [Hx Hfx]]; [done |].
  by rewrite !decide_False.
Qed.

(** Saving a changed row of one user leaves the rows of the others. *)
Lemma cycles_of_save_other (c c' : Cycle) (db : database) (u' : Z) :
  unique_pks db -> c ∈ cycles db -> pk c' = pk c ->
  user c <> u' -> user c' <> u' ->
  cycles_of (save c' db) u' = cycles_of db u'.
Proof.
  intros Huniq Hin Hpk Hu Hu'. unfold cycles_of.
  rewrite cycles_save_stored by (apply Exists_exists; by exists c).
  apply filter_fmap_skip. intros x Hx.
  case_decide as Hpkx; [| by left]. right.
  assert (x = c) as ->
    by (apply (pk_inj (cycles db)); [exact Huniq | done | done | congruence]).
  done.
Qed.

(** The table after [cycle_create]: the rows there were, the latest one
    possibly closed, and the new row with a new key at the end. *)
Lemma cycle_create_cycles (u : Z) (form : CycleForm) (db : database) :
  exists before,
    pk <$> before = pk <$> cycles db /\
    daily_logs (cycle_create u form db) = daily_logs db /\
    cycles (cycle_create u form db) =
      before ++ [MkCycle (next_pk db) u (form_start_date form)
                   (form_end_date form) None (form_notes form)] /\
    (forall u', u' <> u -> unique_pks db ->
       filter (fun c => user c = u') before = cycles_of db u').
Proof.
  unfold cycle_create.
  set (db1 := match latest_cycle db u with
              | Some previous_cycle => _
              | None => db
              end).
  assert (pk <$> cycles db1 = pk <$> cycles db /\
          daily_logs db1 = daily_logs db /\
          (forall u', u' <> u -> unique_pks db ->
             cycles_of db1 u' = cycles_of db u'))
    as (Hpks & Hlogs & Hother).
  { subst db1. destruct (latest_cycle db u) as [previous |] eqn:El; [| done].
    destruct (end_date previous) eqn:Ee; [done |].
    apply latest_cycle_elem_of in El as [Hin Hu].
    set (closed := MkCycle _ _ _ _ _ _).
    assert (Exists (fun c => pk c = pk closed) (cycles db)) as Hex
      by (apply Exists_exists; by exists previous).
    split; [by apply pks_save_stored |]. split; [done |].
    intros u' Hne Huniq.
    apply (cycles_of_save_other previous); [done | done | done | |].
    - by rewrite Hu.
    - subst closed. cbn [user]. by rewrite Hu. }
  exists (cycles db1). split; [done |].
  assert (~ Exists (fun c => pk c = next_pk db1) (cycles db1)) as Hfresh
    by apply next_pk_fresh.
  rewrite (next_pk_pks db db1 Hpks) in *.
  split; [by rewrite daily_logs_save |]. split; [| done].
  by rewrite cycles_save_new.
Qed.

(** [cycle_create] adds exactly one cycle, at the end of the table: it has
    a new key, belongs to the user of the request, carries the dates of the
    form, and has no length, also when the form gives an end date.  The
    daily logs are left alone. *)
Theorem cycle_create_adds_one (u : Z) (form : CycleForm) (db : database) :
  let db' := cycle_create u form db in
  length (cycles db') = S (length (cycles db)) /\
  daily_logs db' = daily_logs db /\
  last (cycles db') =
    Some (MkCycle (next_pk db) u (form_start_date form)
            (form_end_date form) None (form_notes form)) /\
  forall c, c ∈ cycles db -> (pk c < next_pk db)%Z.
Proof.
  cbv zeta.
  destruct (cycle_create_cycles u form db) as (before & Hpks & Hlogs & -> & _).
  rewrite length_app, last_snoc. simpl.
  apply (f_equal length) in Hpks. rewrite !length_fmap in Hpks.
  repeat split; [lia | done |]. intros c. apply pk_lt_next_pk.
Qed.

(** [cycle_create] keeps the keys of the table apart. *)
Theorem cycle_create_unique_pks (u : Z) (form : CycleForm)
    (db : database) :
  unique_pks db -> unique_pks (cycle_create u form db).
Proof.
  intros Huniq. unfold unique_pks in *.
  destruct (cycle_create_cycles u form db) as (before & Hpks & _ & -> & _).
  rewrite fmap_app, Hpks. apply NoDup_app. split; [done |]. split.
  - intros k Hk Hk'. simpl in Hk'. apply list_elem_of_singleton in Hk'.
    apply list_elem_of_fmap in Hk as (c & -> & Hc).
    apply pk_lt_next_pk in Hc. lia.
  - simpl. apply NoDup_singleton.
Qed.

(** [cycle_create] for one user leaves the cycles of every other user as
    they are. *)
Theorem cycle_create_other_users (u u' : Z) (form : CycleForm)
    (db : database) :
  unique_pks db -> u' <> u ->
  cycles_of (cycle_create u form db) u' = cycles_of db u'.
Proof.
  intros Huniq Hne.
  destruct (cycle_create_cycles u form db) as (before & _ & _ & Hc & Hother).
  unfold cycles_of at 1. rewrite Hc, filter_app_none; [by apply Hother |].
  apply Forall_singleton. cbn [user]. congruence.
Qed.

Lemma filter_iff_in {A : Type} (P1 P2 : A -> Prop)
    `{forall x, Decision (P1 x)} `{forall x, Decision (P2 x)} (l : list A) :
  (forall x, x ∈ l -> P1 x <-> P2 x) -> filter P1 l = filter P2 l.
Proof.
  induction l as [| x l IH]; intros Hiff; [done |].
  rewrite !filter_cons, IH by (intros y Hy; apply Hiff; by right).
  apply decide_ext, Hiff. by left.
Qed.

(** The 404 of the cycle views. *)
Lemma get_cycle_or_404_Some (db : database) (key u : Z) (c : Cycle) :
  get_cycle_or_404 db key u = Some c ->
  c ∈ cycles db /\ pk c = key /\ user c = u.
Proof.
  unfold get_cycle_or_404. intros H.
  apply head_Some_elem_of, list_elem_of_filter in H. tauto.
Qed.

Lemma get_cycle_or_404_None (db : database) (key u : Z) :
  get_cycle_or_404 db key u = None <->
  forall c, c ∈ cycles db -> ~ (pk c = key /\ user c = u).
Proof.
  unfold get_cycle_or_404. rewrite head_None. split.
  - intros H c Hc Hp.
    assert (c ∈ filter (fun c => pk c = key /\ user c = u) (cycles db))
      as Hin by (by apply list_elem_of_filter).
    rewrite H in Hin. by apply elem_of_nil in Hin.
  - intros H. apply elem_of_nil_inv. intros c Hc.
    apply list_elem_of_filter in Hc as [Hp Hc]. by apply (H c).
Qed.

(** A user can update a cycle of their own only: the request is a 404
    exactly when the key is not the key of a cycle of the user, and an
    update that goes through leaves the cycles of every other user as they
    are. *)
Theorem cycle_update_request_own (u key : Z) (form : CycleForm)
    (db : database) :
  (cycle_update_request u key form db = None <->
   forall c, c ∈ cycles db -> ~ (pk c = key /\ user c = u)) /\
  (unique_pks db ->
   forall db' u', cycle_update_request u key form db = Some db' ->
     u' <> u -> cycles_of db' u' = cycles_of db u').
Proof.
  unfold cycle_update_request. split.
  - rewrite <- get_cycle_or_404_None.
    by destruct (get_cycle_or_404 db key u).
  - intros Huniq db' u' H Hne.
    destruct (get_cycle_or_404 db key u) as [c |] eqn:E; [| done].
    simpl in H. injection H as <-.
    apply get_cycle_or_404_Some in E as (Hin & _ & Hu).
    unfold cycle_update.
    apply (cycles_of_save_other c); [done | done | done | |];
      cbn [user]; congruence.
Qed.

(** A user can delete a cycle of their own only: the request is a 404
    exactly when the key is not the key of a cycle of the user; a deletion
    that goes through removes the cycle and every daily log of it, and
    leaves the cycles and the daily logs of every other user as they
    are. *)
Theorem cycle_delete_own (u key : Z) (db : database) :
  (cycle_delete u key db = None <->
   forall c, c ∈ cycles db -> ~ (pk c = key /\ user c = u)) /\
  (forall db', cycle_delete u key db = Some db' ->
     (forall c, c ∈ cycles db' -> pk c <> key) /\
     (forall l, l ∈ daily_logs db' -> cycle l <> key) /\
     (unique_pks db -> forall u', u' <> u ->
        cycles_of db' u' = cycles_of db u' /\
        daily_logs_of db' u' = daily_logs_of db u')).
Proof.
  unfold cycle_delete. split.
  - rewrite <- get_cycle_or_404_None.
    by destruct (get_cycle_or_404 db key u).
  - intros db' H.
    destruct (get_cycle_or_404 db key u) as [c0 |] eqn:E; [| done].
    simpl in H. injection H as <-.
    apply get_cycle_or_404_Some in E as (Hin & <- & Hu).
    unfold delete_cycle. cbn [cycles daily_logs].
    split; [| split].
    + intros c Hc. by apply list_elem_of_filter in Hc as [? _].
    + intros l Hl. by apply list_elem_of_filter in Hl as [? _].
    + intros Huniq u' Hne.
      assert (forall c, c ∈ cycles db -> user c = u' -> pk c <> pk c0)
        as Hother.
      { intros c Hc Hcu Hpk.
        assert (c = c0) as ->
          by (apply (pk_inj (cycles db)); [exact Huniq | done | done | done]).
        congruence. }
      split.
      * unfold cycles_of. cbn [cycles]. rewrite list_filter_filter.
        apply filter_iff_in. intros c Hc.
        split; [tauto |]. intros Hcu. split; [done |]. by apply Hother.
      * unfold daily_logs_of. cbn [cycles daily_logs].
        rewrite list_filter_filter.
        apply filter_iff_in. intros l _.
        rewrite !Exists_exists. split.
        -- intros [(c & Hc & Hpk & Hcu) _]. exists c.
           apply list_elem_of_filter in Hc as [_ Hc]. done.
        -- intros (c & Hc & Hpk & Hcu). split.
           ++ exists c. split; [| done]. apply list_elem_of_filter.
              split; [by apply Hother | done].
           ++ rewrite <- Hpk. by apply Hother.
Qed.

Section OrderByMap.
Context {A : Type} (key : A -> Z) (f : A -> A).

Lemma insert_by_fmap (x : A) (l : list A) :
  key (f x) = key x -> (forall y, y ∈ l -> key (f y) = key y) ->
  insert_by key (f x) (f <$> l) = f <$> insert_by key x l.
Proof.
  intros Hx. induction l as [| y l IH]; intros Hl; [done |].
  rewrite fmap_cons. simpl. rewrite Hx, (Hl y) by (by left).
  case_decide; [done |].
  rewrite fmap_cons, IH; [done |]. intros z Hz. apply Hl. by right.
Qed.

(** Changing rows without changing their keys commutes with
    [order_by]. *)
Lemma order_by_fmap (l : list A) :
  (forall y, y ∈ l -> key (f y) = key y) ->
  order_by key (f <$> l) = f <$> order_by key l.
Proof.
  induction l as [| x l IH]; intros Hl; [done |].
  rewrite fmap_cons. simpl. fold (order_by key (f <$> l)).
  fold (order_by key l). rewrite IH by (intros y Hy; apply Hl; by right).
  apply insert_by_fmap; [apply Hl; by left |].
  intros y Hy. apply Hl. right. by apply elem_of_order_by in Hy.
Qed.
End OrderByMap.

Lemma filter_fmap_comm {A : Type} (P : A -> Prop)
    `{forall x, Decision (P x)} (f : A -> A) (l : list A) :
  (forall x, x ∈ l -> P (f x) <-> P x) ->
  filter P (f <$> l) = f <$> filter P l.
Proof.
  induction l as [| x l IH]; intros Hf; [done |].
  rewrite fmap_cons, !filter_cons, IH by (intros y Hy; apply Hf; by right).
  pose proof (Hf x ltac:(by left)) as Hx.
  destruct (decide (P (f x))), (decide (P x)); tauto || done.
Qed.

(** Saving the latest cycle of a user with its key, its user and its start
    date unchanged leaves it the latest cycle. *)
Lemma latest_cycle_save (c c' : Cycle) (db : database) (u : Z) :
  unique_pks db -> latest_cycle db u = Some c ->
  pk c' = pk c -> user c' = user c -> start_date c' = start_date c ->
  latest_cycle (save c' db) u = Some c'.
Proof.
  intros Huniq Hlatest Hpk Hu Hs.
  destruct (latest_cycle_elem_of db u c Hlatest) as [Hin Hcu].
  set (f := fun x : Cycle => if decide (pk x = pk c') then c' else x).
  assert (forall x, x ∈ cycles db -> pk x = pk c' -> x = c) as Hsame.
  { intros x Hx Hpkx.
    apply (pk_inj (cycles db)); [exact Huniq | done | done | congruence]. }
  unfold latest_cycle, cycles_of in *.
  rewrite cycles_save_stored by (apply Exists_exists; by exists c).
  fold f. rewrite filter_fmap_comm.
  - rewrite order_by_fmap.
    + rewrite head_lookup, list_lookup_fmap, <- head_lookup, Hlatest.
      simpl. unfold f. by rewrite decide_True.
    + intros y Hy. apply list_elem_of_filter in Hy as [_ Hy]. unfold f.
      case_decide as Hpky; [| done]. rewrite (Hsame y Hy Hpky). lia.
  - intros x Hx. unfold f. case_decide as Hpkx; [| done].
    rewrite (Hsame x Hx Hpkx). by rewrite Hu.
Qed.

(** The two outcomes of the re-opening of [home]. *)
Lemma home_reopen_cases (u : Z) (db : database) :
  (home_reopen u db = db /\
   forall c n, latest_cycle db u = Some c -> end_date c <> None ->
     cycle_length c = Some n -> (n = 0 \/ 7 <= n)%Z) \/
  (exists c e n,
     latest_cycle db u = Some c /\ end_date c = Some e /\
     cycle_length c = Some n /\ (n <> 0 /\ n < 7)%Z /\
     home_reopen u db =
       save (MkCycle (pk c) (user c) (start_date c) None None (notes c)) db).
Proof.
  unfold home_reopen.
  destruct (latest_cycle db u) as [c |] eqn:El; [| left; by split].
  destruct (end_date c) as [e |] eqn:Ee;
    [| left; split; [done | intros ? ? [= <-]; congruence]].
  destruct (cycle_length c) as [n |] eqn:En;
    [| left; split; [done | intros ? ? [= <-]; congruence]].
  case_decide as Hn.
  - right. by exists c, e, n.
  - left. split; [done |]. intros c0 n0 [= <-] _ Hn0.
    rewrite En in Hn0. injection Hn0 as <-. lia.
Qed.

(** The re-opening of [home]: afterwards the latest cycle of the user is
    not a closed cycle with a length below 7 (null and zero lengths apart);
    running it again changes nothing; the keys of the table and the cycles
    of the other users are as they were. *)
Theorem home_reopen_settles (u : Z) (db : database) :
  unique_pks db ->
  let db' := home_reopen u db in
  (forall c n, latest_cycle db' u = Some c -> end_date c <> None ->
     cycle_length c = Some n -> (n = 0 \/ 7 <= n)%Z) /\
  home_reopen u db' = db' /\
  pk <$> cycles db' = pk <$> cycles db /\
  (forall u', u' <> u -> cycles_of db' u' = cycles_of db u').
Proof.
  intros Huniq db'. subst db'.
  destruct (home_reopen_cases u db)
    as [[-> Hpost] | (c & e & n & Hl & He & Hn & Hlt & ->)].
  - split; [done |]. split; [| done].
    destruct (home_reopen_cases u db)
      as [[-> _] | (c & e & n & Hl & He & Hn & Hlt & _)]; [done |].
    destruct (Hpost c n Hl ltac:(congruence) Hn); lia.
  - set (c' := MkCycle _ _ _ _ _ _).
    destruct (latest_cycle_elem_of db u c Hl) as [Hin Hu].
    assert (latest_cycle (save c' db) u = Some c') as Hl'
      by (by apply (latest_cycle_save c)).
    split; [| split; [| split]].
    + intros c0 n0 Hc0. rewrite Hl' in Hc0. injection Hc0 as <-. done.
    + unfold home_reopen. by rewrite Hl'.
    + apply pks_save_stored, Exists_exists. by exists c.
    + intros u' Hne.
      apply (cycles_of_save_other c); [done | done | done | |].
      * by rewrite Hu.
      * subst c'. cbn [user]. by rewrite Hu.
Qed.





(** The symptom percentages of [analytics_view] are whole numbers between
    0 and 100. *)
Theorem analytics_symptom_pct_range (symptom : DailyLog -> bool) (u : Z)
    (db : database) :
  (0 <= analytics_symptom_pct symptom u db <= 100)%Z.
Proof.
  unfold analytics_symptom_pct. case_decide as Ht; [| lia].
  set (logs := daily_logs_of db u) in *.
  pose proof (of_nat_pos _ Ht) as Hp.
  pose proof (of_nat_le _ _ (length_filter (fun l => symptom l = true) logs))
    as Hle.
  pose proof (of_nat_le 0 (length (filter (fun l => symptom l = true) logs))
                ltac:(lia)) as H0.
  change (of_nat 0) with 0%Q in H0.
  set (count := of_nat (length (filter _ logs))) in *.
  set (total := of_nat (length logs)) in *.
  assert (0 <= count / total /\ count / total <= 1)%Q as [Hlo Hhi].
  { split; [apply Qle_shift_div_l | apply Qle_shift_div_r]; (done || lra). }
  apply rint_between; change (inject_Z 0) with 0%Q;
    change (inject_Z 100) with 100%Q; lra.
Qed.

(** ** Ordering *)

Section OrderBySorted.
Context {A : Type} (key : A -> Z) (R : A -> A -> Prop).

Lemma by_key_then_le (x y : A) :
  by_key_then key R x y -> (key x <= key y)%Z.
Proof. intros [? | [? _]]; lia. Qed.

Lemma insert_by_sorted (x : A) (l : list A) :
  StronglySorted (by_key_then key R) l -> Forall (R x) l ->
  StronglySorted (by_key_then key R) (insert_by key x l).
Proof.
  induction 1 as [| y l Hl IH Hy]; intros Hx; simpl.
  - repeat constructor.
  - apply Forall_cons in Hx as [Hxy Hx]. case_decide as Hk.
    + constructor; [by constructor |]. constructor.
      * unfold by_key_then. destruct (decide (key x = key y)); [by right |].
        left. lia.
      * rewrite Forall_forall in Hy, Hx. apply Forall_forall. intros z Hz.
        pose proof (by_key_then_le _ _ (Hy z Hz)).
        unfold by_key_then. destruct (decide (key x = key z)).
        -- right. split; [done |]. by apply Hx.
        -- left. lia.
    + constructor; [by apply IH |].
      rewrite insert_by_Permutation. constructor; [| done].
      left. lia.
Qed.

(** [order_by] on a table ordered by [R] orders by key, and keeps the
    order [R] among the rows with the same key. *)
Lemma order_by_sorted (l : list A) :
  StronglySorted R l ->
  StronglySorted (by_key_then key R) (order_by key l).
Proof.
  induction 1 as [| x l Hl IH Hx]; simpl; [constructor |].
  apply insert_by_sorted; [done |]. by rewrite order_by_Permutation.
Qed.
End OrderBySorted.

Lemma StronglySorted_any {A : Type} (l : list A) :
  StronglySorted (fun _ _ => True) l.
Proof.
  induction l; constructor; [done |]. by apply Forall_forall.
Qed.

Lemma StronglySorted_weaken {A : Type} (R R' : A -> A -> Prop)
    (l : list A) :
  (forall x y, R x y -> R' x y) ->
  StronglySorted R l -> StronglySorted R' l.
Proof.
  intros HR. induction 1 as [| x l Hl IH Hx]; constructor; [done |].
  eapply Forall_impl; [exact Hx |]. intros y. apply HR.
Qed.

Lemma StronglySorted_filter_keep {A : Type} (R : A -> A -> Prop)
    (P : A -> Prop) `{forall x, Decision (P x)} (l : list A) :
  StronglySorted R l -> StronglySorted R (filter P l).
Proof.
  induction 1 as [| x l Hl IH Hx]; [constructor |].
  rewrite filter_cons. case_decide; [| done].
  constructor; [done |]. apply Forall_forall. intros y Hy.
  apply list_elem_of_filter in Hy as [_ Hy].
  rewrite Forall_forall in Hx. by apply Hx.
Qed.

(** [order_by] puts the rows in the order of their keys. *)
Lemma order_by_ascending {A : Type} (key : A -> Z) (l : list A) :
  StronglySorted (fun x y => (key x <= key y)%Z) (order_by key l).
Proof.
  eapply StronglySorted_weaken;
    [| apply (order_by_sorted key (fun _ _ => True)),
         StronglySorted_any].
  intros x y. apply by_key_then_le.
Qed.

Lemma omap_lengths (l : list Cycle) :
  Forall (fun c => cycle_length c <> None) l ->
  omap (fun c => match cycle_length c with
                 | Some n => if decide (n = 0)%Z then None
                             else Some (inject_Z n)
                 | None => None
                 end) l =
  (fun c => inject_Z (default 0%Z (cycle_length c))) <$>
    filter (fun c => cycle_length c <> Some 0%Z) l.
Proof.
  induction 1 as [| c l Hc _ IH]; [done |].
  rewrite filter_cons. cbn [omap list_omap].
  destruct (cycle_length c) as [n |] eqn:En; [| done].
  destruct (decide (n = 0%Z)) as [-> | Hn].
  - rewrite decide_False by (intros H; by apply H). apply IH.
  - rewrite decide_True by congruence.
    rewrite fmap_cons, En. simpl. by rewrite <- IH.
Qed.

(** The history [get_user_cycle_data] hands to the predictor is made of the
    lengths, neither null nor zero, of all the cycles of the user, each
    once, oldest start first: most recent last, as [predict_with_history]
    reads it. *)
Theorem get_user_cycle_data_chronological (db : database) (u : Z) :
  exists completed : list Cycle,
    completed ≡ₚ
      filter (fun c => user c = u /\ cycle_length c <> None /\
                       cycle_length c <> Some 0%Z) (cycles db) /\
    StronglySorted (fun a b => (start_date a <= start_date b)%Z) completed /\
    (get_user_cycle_data db u).1 =
      (fun c => inject_Z (default 0%Z (cycle_length c))) <$> completed.
Proof.
  unfold get_user_cycle_data. cbn [fst].
  set (cs := order_by start_date _).
  exists (filter (fun c => cycle_length c <> Some 0%Z) cs).
  split; [| split].
  - subst cs. rewrite order_by_Permutation. unfold cycles_of.
    rewrite !list_filter_filter.
    erewrite list_filter_iff; [done |]. intros c. simpl. tauto.
  - apply StronglySorted_filter_keep. subst cs. apply order_by_ascending.
  - apply omap_lengths. apply Forall_forall. intros c Hc. subst cs.
    by apply elem_of_order_by, list_elem_of_filter in Hc as [? _].
Qed.

(** ** The dataset preparer, beyond the claims *)

Section DatasetMore.
Variable np_sqrt : Q -> Q.

Lemma fmap_Some_omap {A B : Type} (f : A -> option B) (l : list A) :
  Forall (fun x => f x <> None) l -> f <$> l = Some <$> omap f l.
Proof.
  induction 1 as [| x l Hx _ IH]; [done |].
  rewrite fmap_cons. cbn [omap list_omap].
  destruct (f x) as [y |]; [| done]. by rewrite fmap_cons, IH.
Qed.

Lemma omap_id_Some {A : Type} (l : list A) : omap id (Some <$> l) = l.
Proof.
  induction l as [| x l IH]; [done |].
  rewrite fmap_cons. cbn [omap list_omap id]. by f_equal.
Qed.

(** A lag read through the history before the row. *)
Lemma shift_lookup_history (k p : nat) (g : Pandas.series) (h : list Q) :
  (1 <= k)%nat -> (p < length g)%nat -> take p g = Some <$> h ->
  mjoin (Pandas.shift k g !! p) =
    if decide (k <= p)%nat then Some (Py.index_neg h k) else None.
Proof.
  intros Hk Hp Hh.
  assert (length h = p) as Hlen.
  { apply (f_equal length) in Hh.
    rewrite length_take, length_fmap in Hh. lia. }
  case_decide as Hkp; [| by rewrite shift_lookup_lt by lia].
  unfold Pandas.shift. rewrite lookup_take_lt by done.
  rewrite lookup_app_r by (rewrite length_replicate; lia).
  rewrite length_replicate.
  rewrite <- (lookup_take_lt g p (p - k)) by lia.
  rewrite Hh, list_lookup_fmap. unfold Py.index_neg. rewrite Hlen.
  destruct (lookup_lt_is_Some_2 h (p - k) ltac:(lia)) as [x ->]. done.
Qed.

(** A rolling aggregate of the three rows before a row, read through the
    history before the row. *)
Lemma rolling_lookup_history (agg : list Q -> option Q) (p : nat)
    (g : Pandas.series) (h : list Q) :
  (p < length g)%nat -> take p g = Some <$> h ->
  mjoin (Pandas.shift 1 (Pandas.rolling 3 agg g) !! p) =
    if decide (1 <= p)%nat then agg (Py.slice_last 3 h) else None.
Proof.
  intros Hp Hh.
  assert (length h = p) as Hlen.
  { apply (f_equal length) in Hh.
    rewrite length_take, length_fmap in Hh. lia. }
  case_decide as H1;
    [| by rewrite shift_lookup_lt by (rewrite ?length_rolling; lia)].
  destruct p as [| q]; [lia |].
  unfold Pandas.shift. rewrite length_rolling.
  rewrite lookup_take_lt by done. simpl.
  unfold Pandas.rolling. rewrite list_lookup_imap.
  destruct (lookup_lt_is_Some_2 g q ltac:(lia)) as [x ->]. simpl.
  f_equal. unfold Pandas.window, Py.slice_last.
  rewrite Hh, <- fmap_drop, omap_id_Some, Hlen. done.
Qed.

(** Within the rows of a user, the rows before a row are the first rows of
    the group. *)
Lemma take_position (df : list row) (i : nat) (r : row) :
  df !! i = Some r ->
  take (position df i r)
    (row_cycle_length <$> filter (fun r' => user_id r' = user_id r) df) =
  row_cycle_length <$>
    filter (fun r' => user_id r' = user_id r) (take i df).
Proof.
  intros E. unfold position.
  rewrite <- (take_drop i df) at 2.
  rewrite filter_app, fmap_app.
  rewrite take_app_length'; [done |]. by rewrite length_fmap.
Qed.

(** What [create_features] computes for a row, told through the cycle
    lengths the user of the row had recorded before it. *)
Lemma create_features_history (df : list row) (i : nat) (r : feature_row) :
  Forall (fun r => row_cycle_length r <> None) df ->
  create_features np_sqrt df !! i = Some r ->
  let h := history_before (sort_values df) i (source r) in
  prev_cycle_length_1 r =
    (if decide (1 <= length h)%nat then Py.index_neg h 1 else 28%Q) /\
  prev_cycle_length_2 r =
    (if decide (2 <= length h)%nat then Py.index_neg h 2 else 28%Q) /\
  prev_cycle_length_3 r =
    (if decide (3 <= length h)%nat then Py.index_neg h 3 else 28%Q) /\
  rolling_mean_3 r =
    (if decide (1 <= length h)%nat then Py.mean (Py.slice_last 3 h)
     else 28%Q) /\
  rolling_std_3 r =
    (if decide (2 <= length h)%nat
     then sample_std np_sqrt (Py.slice_last 3 h) else 2%Q).
Proof.
  intros Hnan Hr h.
  destruct (create_features_lookup np_sqrt df i r Hr)
    as (H1 & H2 & H3 & H4 & H5).
  destruct (create_features_columns np_sqrt df) as (Hsrc & _).
  apply (f_equal (fun l => l !! i)) in Hsrc.
  rewrite list_lookup_fmap, Hr in Hsrc. simpl in Hsrc. symmetry in Hsrc.
  set (sorted := sort_values df) in *.
  set (g := row_cycle_length <$>
              filter (fun r' => user_id r' = user_id (source r)) sorted).
  set (p := position sorted i (source r)).
  assert (p < length g)%nat as Hp
    by (subst g; rewrite length_fmap; by apply position_lt_group).
  assert (take p g = Some <$> h) as Hh.
  { subst p g h. rewrite take_position by done. unfold history_before.
    apply fmap_Some_omap, Forall_forall. intros x Hx.
    apply list_elem_of_filter in Hx as [_ Hx].
    apply elem_of_take in Hx as (j & Hx & _).
    apply list_elem_of_lookup_2 in Hx.
    unfold sorted, sort_values in Hx.
    rewrite !elem_of_order_by in Hx.
    rewrite Forall_forall in Hnan. by apply Hnan. }
  assert (length h = p) as Hlen.
  { apply (f_equal length) in Hh.
    rewrite length_take, length_fmap in Hh. lia. }
  unfold lag_column, rolling_mean_column, rolling_std_column in *.
  rewrite (groupby_transform_lookup _ _ _ _ Hsrc) in H1.
  rewrite (groupby_transform_lookup _ _ _ _ Hsrc) in H2.
  rewrite (groupby_transform_lookup _ _ _ _ Hsrc) in H3.
  rewrite (groupby_transform_lookup _ _ _ _ Hsrc) in H4.
  rewrite (groupby_transform_lookup _ _ _ _ Hsrc) in H5.
  fold g p in H1, H2, H3, H4, H5. cbn [mjoin option_join] in *.
  rewrite (shift_lookup_history 1 p g h) in H1 by (done || lia).
  rewrite (shift_lookup_history 2 p g h) in H2 by (done || lia).
  rewrite (shift_lookup_history 3 p g h) in H3 by (done || lia).
  rewrite (rolling_lookup_history _ p g h) in H4 by done.
  rewrite (rolling_lookup_history _ p g h) in H5 by done.
  rewrite Hlen.
  assert (length (Py.slice_last 3 h) = Nat.min 3 p) as Hsl
    by (unfold Py.slice_last; rewrite length_drop; lia).
  repeat split.
  - rewrite H1. by destruct (decide (1 <= p)%nat).
  - rewrite H2. by destruct (decide (2 <= p)%nat).
  - rewrite H3. by destruct (decide (3 <= p)%nat).
  - rewrite H4. destruct (decide (1 <= p)%nat); [| done].
    unfold Pandas.rolling_mean.
    destruct (Py.slice_last 3 h) eqn:E; [cbn [length] in Hsl; lia | done].
  - rewrite H5. unfold Pandas.rolling_std, sample_std. rewrite Hsl.
    destruct (decide (1 <= p)%nat), (decide (2 <= p)%nat),
      (decide (3 `min` p < 2)%nat); try done; lia.
Qed.

(** What [create_features] computes for a row of a frame without missing
    cycle lengths, told through the history of the row, the cycle lengths
    its user had recorded before it: lag [k] is the [k]-th last of them,
    the rolling mean is the mean of the last three at most, the rolling std
    is the sample standard deviation of the last three at most; the
    defaults 28 and 2 stand in while the history is too short (no value
    for a lag or the mean, fewer than two values for the std). *)
Theorem create_features_from_history (df : list row) (i : nat)
    (r : feature_row) :
  Forall (fun r => row_cycle_length r <> None) df ->
  create_features np_sqrt df !! i = Some r ->
  let h := history_before (sort_values df) i (source r) in
  prev_cycle_length_1 r =
    (if decide (1 <= length h)%nat then Py.index_neg h 1 else 28%Q) /\
  prev_cycle_length_2 r =
    (if decide (2 <= length h)%nat then Py.index_neg h 2 else 28%Q) /\
  prev_cycle_length_3 r =
    (if decide (3 <= length h)%nat then Py.index_neg h 3 else 28%Q) /\
  rolling_mean_3 r =
    (if decide (1 <= length h)%nat then Py.mean (Py.slice_last 3 h)
     else 28%Q) /\
  rolling_std_3 r =
    (if decide (2 <= length h)%nat
     then sample_std np_sqrt (Py.slice_last 3 h) else 2%Q).
Proof. apply create_features_history. Qed.

Lemma last_three (h : list Q) :
  (3 <= length h)%nat -> exists l0 x y z, h = l0 ++ [x; y; z].
Proof.
  intros Hlen. exists (take (length h - 3) h).
  pose proof (take_drop (length h - 3) h) as E.
  pose proof (length_drop h (length h - 3)) as Hd.
  destruct (drop (length h - 3) h) as [| x [| y [| z [| w t]]]];
    simpl in Hd; try lia.
  by exists x, y, z.
Qed.

Lemma mean_singleton (x : Q) : (Py.mean [x] == x)%Q.
Proof. unfold Py.mean. simpl. field. Qed.

(** Training and prediction build the lag and rolling features of a user
    from the same history, and agree in part.  For a row of a frame
    without missing cycle lengths, against [predict_with_history] on the
    history of the row: lag 1 and the rolling mean always agree; lag 2
    agrees unless the history has one value, lag 3 unless it has one or
    two, where training has the default 28 and prediction repeats a value
    of the history; the rolling std agrees, with the default 2, while the
    history has at most one value. *)
Theorem create_features_agrees_with_history_features (df : list row)
    (i : nat) (r : feature_row) :
  Forall (fun r => row_cycle_length r <> None) df ->
  create_features np_sqrt df !! i = Some r ->
  let h := history_before (sort_values df) i (source r) in
  let '(prev_1, prev_2, prev_3, rolling_mean, rolling_std) :=
    history_features np_sqrt h in
  prev_cycle_length_1 r = prev_1 /\
  (rolling_mean_3 r == rolling_mean)%Q /\
  (length h <> 1%nat -> prev_cycle_length_2 r = prev_2) /\
  (length h <> 1%nat -> length h <> 2%nat -> prev_cycle_length_3 r = prev_3)
  /\
  ((length h <= 1)%nat -> rolling_std_3 r = rolling_std) /\
  (length h = 1%nat ->
     prev_cycle_length_2 r = 28%Q /\ prev_cycle_length_3 r = 28%Q) /\
  (length h = 2%nat -> prev_cycle_length_3 r = 28%Q).
Proof.
  intros Hnan Hr h.
  destruct (create_features_history df i r Hnan Hr)
    as (H1 & H2 & H3 & H4 & H5).
  fold h in H1, H2, H3, H4, H5. clearbody h.
  destruct h as [| a [| b [| c t]]].
  - rewrite history_features_0. simpl in *.
    rewrite H1, H2, H3, H4, H5. repeat split; (done || lia).
  - rewrite history_features_1. simpl in *.
    rewrite H1, H2, H3, H4, H5. repeat split; try (done || lia).
    apply (mean_singleton a).
  - rewrite history_features_2. simpl in *.
    rewrite H1, H2, H3, H4. repeat split; (done || lia).
  - destruct (last_three (a :: b :: c :: t) ltac:(simpl; lia))
      as (l0 & x & y & z & E).
    rewrite E in *. rewrite history_features_3.
    rewrite decide_True in H1 by (rewrite length_app; simpl; lia).
    rewrite decide_True in H2 by (rewrite length_app; simpl; lia).
    rewrite decide_True in H3 by (rewrite length_app; simpl; lia).
    rewrite decide_True in H4 by (rewrite length_app; simpl; lia).
    rewrite !index_neg_app in H1, H2, H3 by (simpl; lia).
    pose proof (slice_last_app l0 [x; y; z]) as Hs. cbn [length] in Hs.
    rewrite Hs in H4.
    assert (length (l0 ++ [x; y; z]) = S (S (S (length l0)))) as Hlen
      by (rewrite length_app; simpl; lia).
    rewrite H1, H2, H3, H4. repeat split; (done || lia).
Qed.

(** [create_features] keeps every row, once, ordered by user and, for one
    user, by start date. *)
Theorem create_features_rows (df : list row) :
  source <$> create_features np_sqrt df ≡ₚ df /\
  StronglySorted
    (fun a b => (user_id a < user_id b)%Z \/
                (user_id a = user_id b /\
                 (cycle_start_date a <= cycle_start_date b)%Z))
    (source <$> create_features np_sqrt df).
Proof.
  destruct (create_features_columns np_sqrt df) as (-> & _).
  unfold sort_values. split; [by rewrite !order_by_Permutation |].
  eapply StronglySorted_weaken;
    [| apply order_by_sorted, (order_by_ascending cycle_start_date)].
  intros a b [? | [? ?]]; [by left | by right].
Qed.

(** Training and prediction encode the flow intensity alike on the four
    known levels, and apart on anything else: 1 in training, 2 in the
    forecast service. *)
Theorem flow_encoding_train_serve (s : string) :
  (s ∈ ["none"; "light"; "medium"; "heavy"] ->
     preprocess_flow s = flow_map s) /\
  (s ∉ ["none"; "light"; "medium"; "heavy"] ->
     preprocess_flow s = 1%Q /\ flow_map s = 2%Q).
Proof.
  unfold preprocess_flow, flow_map. split.
  - intros H. repeat (apply elem_of_cons in H as [-> | H]); try done.
    by apply elem_of_nil in H.
  - intros H. rewrite !not_elem_of_cons in H.
    destruct H as (? & ? & ? & ? & _). by rewrite !decide_False.
Qed.

End DatasetMore.

Section PreprocessMore.
Variable np_sqrt : Q -> Q.
Local Open Scope Q_scope.

Lemma insert_sorted_Permutation (x : Q) (l : list Q) :
  insert_sorted x l ≡ₚ x :: l.
Proof.
  induction l as [| y l IH]; simpl; [done |].
  destruct (Qlt_le_dec y x); [| done]. rewrite IH. apply Permutation_swap.
Qed.

Lemma sort_observations_Permutation (l : list Q) :
  sort_observations l ≡ₚ l.
Proof.
  induction l as [| x l IH]; simpl; [done |].
  by rewrite insert_sorted_Permutation, IH.
Qed.

(** The median is there exactly when an observation is, and lies between
    bounds of the observations. *)
Lemma median_None (s : Pandas.series) :
  median s = None <-> omap id s = [].
Proof.
  unfold median.
  pose proof (Permutation_length (sort_observations_Permutation (omap id s)))
    as Hlen.
  set (sorted := sort_observations (omap id s)) in *.
  split.
  - intros H. case_decide as Hn.
    + destruct (omap id s); [done | simpl in Hlen; lia].
    + exfalso. destruct (Nat.even (length sorted)); [done |].
      apply lookup_ge_None in H.
      pose proof (Nat.div_lt (length sorted) 2). lia.
  - intros E. rewrite E in Hlen. simpl in Hlen.
    by rewrite decide_True.
Qed.

Lemma median_between (a b : Q) (s : Pandas.series) (m : Q) :
  Forall (fun q => a <= q /\ q <= b) (omap id s) ->
  median s = Some m -> a <= m /\ m <= b.
Proof.
  intros Hall Hm. unfold median in Hm.
  rewrite <- (sort_observations_Permutation (omap id s)) in Hall.
  set (sorted := sort_observations (omap id s)) in *.
  rewrite Forall_forall in Hall.
  case_decide as Hn; [done |].
  pose proof (Nat.div_lt (length sorted) 2 ltac:(lia) ltac:(lia)) as Hhalf.
  destruct (Nat.even (length sorted)).
  - destruct (lookup_lt_is_Some_2 sorted (length sorted / 2 - 1)
                ltac:(lia)) as [x Hx].
    destruct (lookup_lt_is_Some_2 sorted (length sorted / 2)
                ltac:(lia)) as [y Hy].
    rewrite Hx, Hy in Hm. simpl in Hm. injection Hm as <-.
    pose proof (Hall x (list_elem_of_lookup_2 _ _ _ Hx)).
    pose proof (Hall y (list_elem_of_lookup_2 _ _ _ Hy)).
    split; [apply Qle_shift_div_l | apply Qle_shift_div_r]; lra.
  - apply Hall. by apply list_elem_of_lookup_2 in Hm.
Qed.

Lemma fillna_median_facts (s : Pandas.series) :
  length (fillna_median s) = length s /\
  (forall i q, s !! i = Some (Some q) ->
     fillna_median s !! i = Some (Some q)) /\
  (omap id s <> [] -> Forall (fun x => x <> None) (fillna_median s)) /\
  (forall a b i q,
     Forall (fun q => a <= q /\ q <= b) (omap id s) ->
     s !! i = Some None -> fillna_median s !! i = Some (Some q) ->
     a <= q /\ q <= b) /\
  (omap id s = [] -> fillna_median s = s).
Proof.
  unfold fillna_median.
  destruct (median s) as [m |] eqn:Em.
  - split; [by rewrite length_fmap |]. split; [| split; [| split]].
    + intros i q Hi. by rewrite list_lookup_fmap, Hi.
    + intros _. apply Forall_fmap, Forall_forall. by intros x _.
    + intros a b i q Hall Hi Hq.
      rewrite list_lookup_fmap, Hi in Hq. simpl in Hq. injection Hq as <-.
      by apply (median_between a b s).
    + intros E. apply median_None in E. congruence.
  - apply median_None in Em.
    split; [done |]. split; [done |]. split; [done |]. split; [| done].
    intros a b i q _ Hi Hq. congruence.
Qed.

(** The median imputation of [preprocess_data] on a numeric column: the
    column keeps its height and every value that is there; when the column
    has an observation no NaN is left, and what replaces a NaN lies between
    bounds of the observations; a column of NaN only stays as it is. *)
Theorem fillna_median_fills (s : Pandas.series) :
  length (fillna_median s) = length s /\
  (forall i q, s !! i = Some (Some q) ->
     fillna_median s !! i = Some (Some q)) /\
  (omap id s <> [] -> Forall (fun x => x <> None) (fillna_median s)) /\
  (forall a b i q,
     Forall (fun q => a <= q /\ q <= b) (omap id s) ->
     s !! i = Some None -> fillna_median s !! i = Some (Some q) ->
     a <= q /\ q <= b) /\
  (omap id s = [] -> fillna_median s = s).
Proof. apply fillna_median_facts. Qed.

Lemma preprocess_data_lookup (df : list row) (i : nat) (r : row) :
  preprocess_data df !! i = Some r ->
  exists r0 x,
    df !! i = Some r0 /\
    fillna_median (row_cycle_length <$> df) !! i = Some x /\
    r = MkRow (user_id r0) (cycle_start_date r0) x.
Proof.
  unfold preprocess_data. intros H.
  apply lookup_zip_with_Some in H as (r0 & x & -> & H0 & Hx).
  by exists r0, x.
Qed.

Lemma length_preprocess_data (df : list row) :
  length (preprocess_data df) = length df.
Proof.
  unfold preprocess_data. rewrite length_zip_with.
  destruct (fillna_median_facts (row_cycle_length <$> df)) as (-> & _).
  rewrite length_fmap. lia.
Qed.

Lemma length_create_features (df : list row) :
  length (create_features np_sqrt df) = length df.
Proof.
  destruct (create_features_columns np_sqrt df) as (H & _).
  apply (f_equal length) in H. rewrite length_fmap in H. rewrite H.
  unfold sort_values. by rewrite !order_by_Permutation.
Qed.

Lemma elem_of_create_features_source (df : list row) (r : feature_row) :
  r ∈ create_features np_sqrt df -> source r ∈ df.
Proof.
  intros Hr. destruct (create_features_columns np_sqrt df) as (H & _).
  assert (source r ∈ source <$> create_features np_sqrt df) as Hin
    by (by apply list_elem_of_fmap_2).
  rewrite H in Hin. unfold sort_values in Hin.
  by rewrite !elem_of_order_by in Hin.
Qed.

Lemma filter_all {A : Type} (P : A -> Prop) `{forall x, Decision (P x)}
    (l : list A) :
  Forall P l -> filter P l = l.
Proof.
  induction 1 as [| x l Hx _ IH]; [done |].
  by rewrite filter_cons, decide_True, IH.
Qed.

Lemma filter_none {A : Type} (P : A -> Prop) `{forall x, Decision (P x)}
    (l : list A) :
  Forall (fun x => ~ P x) l -> filter P l = [].
Proof.
  induction 1 as [| x l Hx _ IH]; [done |].
  by rewrite filter_cons, decide_False, IH.
Qed.

(** In [prepare_training_data] the rows without a target are dropped after
    the median imputation of [preprocess_data] has filled the targets: as
    soon as one row of the frame has a cycle length, no row is dropped,
    and a row that had none is trained on with the median as its target.
    Only a frame without any cycle length loses its rows, all of them. *)
Theorem training_rows_all_or_nothing (df : list row) :
  ((exists r, r ∈ df /\ row_cycle_length r <> None) ->
     length (training_rows np_sqrt df) = length df /\
     Forall (fun r => row_cycle_length (source r) <> None)
       (training_rows np_sqrt df)) /\
  ((forall r, r ∈ df -> row_cycle_length r = None) ->
     training_rows np_sqrt df = []).
Proof.
  unfold training_rows. split.
  - intros (r & Hr & Hlen).
    assert (omap id (row_cycle_length <$> df) <> []) as Hobs.
    { destruct (row_cycle_length r) as [q |] eqn:Eq; [| done].
      intros E.
      assert (q ∈ omap id (row_cycle_length <$> df)) as Hin.
      { apply list_elem_of_omap. exists (Some q). split; [| done].
        rewrite <- Eq. by apply list_elem_of_fmap_2. }
      rewrite E in Hin. by apply elem_of_nil in Hin. }
    destruct (fillna_median_facts (row_cycle_length <$> df))
      as (_ & _ & Hfull & _). specialize (Hfull Hobs).
    assert (Forall (fun r => row_cycle_length (source r) <> None)
              (create_features np_sqrt (preprocess_data df))) as Hall.
    { apply Forall_forall. intros fr Hfr.
      apply elem_of_create_features_source in Hfr.
      apply list_elem_of_lookup in Hfr as (i & Hi).
      apply preprocess_data_lookup in Hi as (r0 & x & _ & Hx & ->).
      rewrite Forall_forall in Hfull. apply Hfull.
      by apply list_elem_of_lookup_2 in Hx. }
    rewrite filter_all by done. split; [| done].
    by rewrite length_create_features, length_preprocess_data.
  - intros Hnone.
    assert (omap id (row_cycle_length <$> df) = []) as Hobs.
    { apply elem_of_nil_inv. intros q Hq.
      apply list_elem_of_omap in Hq as (x & Hx & Hq).
      apply list_elem_of_fmap in Hx as (r & -> & Hr).
      rewrite (Hnone r Hr) in Hq. done. }
    apply filter_none, Forall_forall. intros fr Hfr Htarget.
    apply Htarget.
    apply elem_of_create_features_source in Hfr.
    apply list_elem_of_lookup in Hfr as (i & Hi).
    apply preprocess_data_lookup in Hi as (r0 & x & Hr0 & Hx & ->).
    destruct (fillna_median_facts (row_cycle_length <$> df))
      as (_ & _ & _ & _ & Hsame).
    rewrite (Hsame Hobs), list_lookup_fmap, Hr0 in Hx.
    simpl in Hx. injection Hx as <-. cbn [row_cycle_length].
    apply Hnone. by apply list_elem_of_lookup_2 in Hr0.
Qed.

(** The feature names training saves are expected names, in the expected
    order; and once [save_model] has stored such a list that is not empty,
    [predict_with_history] on numeric symptoms returns, whatever the file
    held before, with confidence 1 and a length in [[21, 40]]. *)
Theorem feature_cols_full_confidence (columns : list string)
    (m : regressor) (fs : model_file) (cycle_lengths : list Q)
    (user_age : Q) (symptoms : gmap string pyval) :
  feature_cols columns `sublist_of` get_feature_columns /\
  (numeric_symptoms symptoms -> feature_cols columns <> [] ->
   exists v c,
     predict_with_history np_sqrt
       (save_model m (feature_cols columns) fs) cycle_lengths user_age
       (Some symptoms) = Ok (v, c) /\
     c == 1 /\ 21 <= v /\ v <= 40).
Proof.
  split; [apply sublist_filter |].
  intros Hs Hne. unfold save_model.
  apply (predict_with_history_trained np_sqrt); [done | done |].
  cbn [feature_names]. intros name Hn.
  by apply list_elem_of_filter in Hn as [_ ?].
Qed.
End PreprocessMore.

(** * Examples *)

Section Examples.
Local Open Scope Q_scope.

(** The predictor clamps and rounds: a model that answers 123.456, asked
    for one feature that is there and one that is not. *)
Example predict_cycle_length_run :
  predict_cycle_length
    (Some (ModelData (fun _ => 123456 # 1000) ["age"; "weight"] "1.0"))
    {[ "age" := PyNum 25 ]} = Ok (400 # 10, 1 # 2).
Proof. reflexivity. Qed.

(** A file without feature names: the confidence ratio divides by zero,
    and [predict_with_history] lets the error through. *)
Example predict_with_history_empty_names :
  predict_with_history sqrt_approx
    (Some (ModelData (fun _ => 30) [] "1.0")) [28; 30; 27] 25 None
  = Raise ZeroDivisionError.
Proof. reflexivity. Qed.

(** The forecast of the user of the examples before any training: one
    completed cycle of 28 days, so 28.0 with the confidence 0.5 dampened to
    0.35, and the next start 28 days after day 128. *)
Example get_prediction_for_user_run :
  get_prediction_for_user sqrt_approx 130 None example_database 7 =
    Ok {| predicted_length := Some (280 # 10);
          predicted_date := Some 156%Z;
          confidence := 35 # 100;
          days_until := Some 26%Z;
          has_enough_data := true;
          message := "Low confidence - based on limited data";
          cycle_count := Some 1%nat |}.
Proof. vm_compute. reflexivity. Qed.

(** The unclamped fallback reaches the user: one completed cycle of 45 days
    and no model file give a forecast of 45.0 days. *)
Example get_prediction_for_user_unclamped :
  get_prediction_for_user sqrt_approx 150 None
    (MkDatabase [ MkCycle 1 7 100 (Some 145%Z) (Some 45%Z) EmptyString ] [])
    7 =
    Ok {| predicted_length := Some (450 # 10);
          predicted_date := Some 145%Z;
          confidence := 35 # 100;
          days_until := Some (-5)%Z;
          has_enough_data := true;
          message := "Low confidence - based on limited data";
          cycle_count := Some 1%nat |}.
Proof. vm_compute. reflexivity. Qed.

(** C1 as first stated, with the mean itself as the answer, fails: the
    history [[29, 30, 29]] has the mean 88/3 and the fallback returns
    29.3. *)
Lemma predict_with_history_fallback_not_mean :
  ~ (exists v c,
       predict_with_history sqrt_approx None [29; 30; 29] 25 None
         = Ok (v, c) /\
       v == Py.mean [29; 30; 29] /\ c == 1 # 2).
Proof.
  intros (v & c & H & Hv & _).
  rewrite predict_with_history_no_file in H. injection H as <- <-.
  vm_compute in Hv. discriminate Hv.
Qed.

(** C8 as first stated fails: the answer for [[28, 30, 27]] is 28.3 and
    not 28.33. *)
Lemma predict_with_history_scenario_not_2833 :
  ~ (exists v c,
       predict_with_history sqrt_approx None [28; 30; 27] 25 None
         = Ok (v, c) /\
       v == 2833 # 100 /\ c == 1 # 2).
Proof.
  intros (v & c & H & Hv & _).
  rewrite predict_with_history_no_file in H. injection H as <- <-.
  vm_compute in Hv. discriminate Hv.
Qed.

(** C9 as first stated, with 28 in every gap, fails on the rolling std:
    the first cycle of a user has no rolling std, and receives 2. *)
Lemma create_features_std_gap_not_28 :
  ~ (forall i r,
       create_features sqrt_approx example_frame !! i = Some r ->
       rolling_std_column sqrt_approx (sort_values example_frame) !! i
         = Some None ->
       rolling_std_3 r == 28).
Proof.
  intros H.
  specialize (H 0%nat _ eq_refl eq_refl). vm_compute in H. discriminate H.
Qed.

(** The degradation policy on a history of three cycles. *)
Lemma build_features_degradation_witness :
  numeric_symptoms ∅ /\
  history_fields (build_features sqrt_approx [28; 30; 27] 25 ∅)
    27 30 28 (Py.mean [28; 30; 27]) (Py.std sqrt_approx [28; 30; 27]).
Proof.
  assert (numeric_symptoms ∅) as Hs by (split; discriminate).
  split; [exact Hs |].
  destruct (build_features_degradation sqrt_approx [28; 30; 27] 25 ∅ Hs)
    as (_ & _ & _ & _ & H).
  exact (H [] 28 30 27 eq_refl).
Defined.

(** Full confidence with the model file of the examples. *)
Lemma predict_with_history_full_confidence_witness :
  numeric_symptoms (default ∅ None) /\
  feature_names example_model_data <> [] /\
  feature_names example_model_data ⊆ get_feature_columns /\
  exists v c,
    predict_with_history sqrt_approx (Some example_model_data)
      [28; 30; 27] 25 None = Ok (v, c) /\ c == 1.
Proof.
  assert (numeric_symptoms (default ∅ None)) as Hs by (split; discriminate).
  assert (feature_names example_model_data <> []) as Hne by discriminate.
  assert (feature_names example_model_data ⊆ get_feature_columns) as Hsub
    by (intros x Hx; exact Hx).
  repeat (split; [assumption |]).
  exact (proj2 (predict_with_history_full_confidence sqrt_approx
                  [28; 30; 27] 25 None example_model_data Hs Hne Hsub)).
Defined.

(** The forecast of the user of the examples, with a model file. *)
Lemma get_prediction_for_user_confidence_witness :
  usable (Some example_model_data) /\
  exists r,
    get_prediction_for_user sqrt_approx 130 (Some example_model_data)
      example_database 7 = Ok r
    /\ 0 <= confidence r /\ confidence r <= 1.
Proof.
  assert (usable (Some example_model_data)) as Hfs.
  { intros d Hd. injection Hd as <-. discriminate. }
  split; [exact Hfs |].
  destruct (get_prediction_for_user_confidence sqrt_approx 130
              (Some example_model_data) example_database 7 Hfs)
    as (r & Hr & Hrange & _).
  exists r. exact (conj Hr Hrange).
Defined.

(** The forecast of a user whose only cycle is open, with a model file
    in place. *)
Lemma get_prediction_for_user_no_data_witness :
  (forall c, c ∈ cycles example_open_database -> user c = 7%Z ->
     cycle_length c = None \/ cycle_length c = Some 0%Z) /\
  get_prediction_for_user sqrt_approx 130 (Some example_model_data)
    example_open_database 7 = Ok not_enough_data.
Proof.
  assert (forall c, c ∈ cycles example_open_database -> user c = 7%Z ->
            cycle_length c = None \/ cycle_length c = Some 0%Z) as H.
  { intros c Hc _. apply list_elem_of_singleton in Hc. subst c.
    left. reflexivity. }
  split; [exact H |].
  exact (get_prediction_for_user_no_data sqrt_approx 130
           (Some example_model_data) example_open_database 7 H).
Defined.

(** The second cycle of a user: lag 1 is there, the other lags and the
    rolling std are gaps. *)
Lemma create_features_gaps_witness :
  create_features sqrt_approx example_frame !! 1%nat =
    Some (MkFeatureRow (MkRow 1 28 (Some 30)) 28 28 28 28 2) /\
  lag_column 2 (sort_values example_frame) !! 1%nat = Some None /\
  rolling_std_column sqrt_approx (sort_values example_frame) !! 1%nat
    = Some None /\
  prev_cycle_length_2 (MkFeatureRow (MkRow 1 28 (Some 30)) 28 28 28 28 2)
    = 28 /\
  rolling_std_3 (MkFeatureRow (MkRow 1 28 (Some 30)) 28 28 28 28 2) = 2.
Proof.
  assert (create_features sqrt_approx example_frame !! 1%nat =
            Some (MkFeatureRow (MkRow 1 28 (Some 30)) 28 28 28 28 2)) as Hr
    by (vm_compute; reflexivity).
  destruct (create_features_gaps sqrt_approx example_frame 1 _ Hr)
    as (_ & H2 & _ & _ & H5).
  split; [exact Hr |].
  split; [vm_compute; reflexivity |].
  split; [vm_compute; reflexivity |].
  split; [apply H2 | apply H5]; vm_compute; reflexivity.
Defined.

(** Runs of the further properties. *)

Lemma unique_pks_example_database : unique_pks example_database.
Proof. apply (bool_decide_unpack _). vm_compute. exact I. Defined.

Lemma predict_cycle_length_missing_is_zero_witness :
  (∅ : gmap string pyval) !! "age" = None /\
  exists v c c',
    predict_cycle_length (Some example_model_data) ∅ = Ok (v, c) /\
    predict_cycle_length (Some example_model_data)
      (<["age" := PyNum 0]> ∅) = Ok (v, c') /\
    c <= c'.
Proof.
  assert ((∅ : gmap string pyval) !! "age" = None) as H0 by reflexivity.
  split; [exact H0 |].
  destruct (predict_cycle_length (Some example_model_data) ∅)
    as [[v c] | e] eqn:E; [| vm_compute in E; discriminate E].
  destruct (predict_cycle_length_missing_is_zero (Some example_model_data)
              ∅ "age" v c H0 E) as (c' & H1 & H2).
  exists v, c, c'. exact (conj eq_refl (conj H1 H2)).
Defined.

Lemma predict_with_history_fallback_between_witness :
  [28; 30; 27] <> [] /\
  Forall (fun x => inject_Z 27 <= x /\ x <= inject_Z 30) [28; 30; 27] /\
  exists v,
    predict_with_history sqrt_approx None [28; 30; 27] 25 None
      = Ok (v, 1 # 2) /\
    inject_Z 27 <= v /\ v <= inject_Z 30.
Proof.
  assert ([28; 30; 27] <> ([] : list Q)) as Hne by discriminate.
  assert (Forall (fun x => inject_Z 27 <= x /\ x <= inject_Z 30)
            [28; 30; 27]) as Hall
    by (repeat constructor; vm_compute; discriminate).
  split; [exact Hne |]. split; [exact Hall |].
  exact (predict_with_history_fallback_between sqrt_approx 27 30
           [28; 30; 27] 25 None Hne Hall).
Defined.

Lemma get_prediction_for_user_trained_witness :
  feature_names example_model_data <> [] /\
  feature_names example_model_data ⊆ get_feature_columns /\
  (get_user_cycle_data example_database 7).1 <> [] /\
  exists r,
    get_prediction_for_user sqrt_approx 130 (Some example_model_data)
      example_database 7 = Ok r /\
    message r = "High confidence prediction".
Proof.
  assert (feature_names example_model_data <> []) as Hne by discriminate.
  assert (feature_names example_model_data ⊆ get_feature_columns) as Hsub
    by (intros x Hx; exact Hx).
  assert ((get_user_cycle_data example_database 7).1 <> []) as Hcl
    by (vm_compute; discriminate).
  repeat (split; [assumption |]).
  destruct (get_prediction_for_user_trained sqrt_approx 130
              example_model_data example_database 7 Hne Hsub Hcl)
    as (r & Hr & _ & Hm & _).
  exists r. exact (conj Hr Hm).
Defined.

Lemma get_prediction_for_user_untrained_witness :
  (get_user_cycle_data example_database 7).1 <> [] /\
  exists r,
    get_prediction_for_user sqrt_approx 130 None example_database 7 = Ok r /\
    has_enough_data r = true.
Proof.
  assert ((get_user_cycle_data example_database 7).1 <> []) as Hcl
    by (vm_compute; discriminate).
  split; [exact Hcl |].
  destruct (get_prediction_for_user_untrained sqrt_approx 130
              example_database 7 Hcl) as (r & Hr & He & _).
  exists r. exact (conj Hr He).
Defined.

Lemma get_prediction_for_user_date_witness :
  exists r,
    get_prediction_for_user sqrt_approx 130 None example_database 7 = Ok r /\
    has_enough_data r = true /\
    predicted_date r = Some 156%Z /\ days_until r = Some 26%Z.
Proof.
  destruct (get_prediction_for_user sqrt_approx 130 None example_database 7)
    as [r | e] eqn:E; [| vm_compute in E; discriminate E].
  assert (has_enough_data r = true) as He
    by (vm_compute in E; injection E as <-; reflexivity).
  destruct (get_prediction_for_user_date sqrt_approx 130 None
              example_database 7 r E He)
    as (last & v & Hl & Hv & Hd & Hu & _).
  exists r. split; [reflexivity |]. split; [exact He |].
  vm_compute in E. injection E as <-. split; reflexivity.
Defined.

Lemma get_prediction_for_user_isolation_witness :
  Forall (fun c => user c <> 7%Z) [MkCycle 3 8 90 None None EmptyString] /\
  Forall (fun l => ~ Exists (fun c => pk c = cycle l /\ user c = 7%Z)
                      (cycles example_database))
    [MkDailyLog 3 91 "light" false true false false false] /\
  get_prediction_for_user sqrt_approx 130 None
    (MkDatabase
       (cycles example_database ++ [MkCycle 3 8 90 None None EmptyString])
       (daily_logs example_database ++
          [MkDailyLog 3 91 "light" false true false false false])) 7
  = get_prediction_for_user sqrt_approx 130 None example_database 7.
Proof.
  assert (Forall (fun c => user c <> 7%Z)
            [MkCycle 3 8 90 None None EmptyString]) as Hc
    by (repeat constructor; discriminate).
  assert (Forall (fun l => ~ Exists (fun c => pk c = cycle l /\ user c = 7%Z)
                              (cycles example_database))
            [MkDailyLog 3 91 "light" false true false false false]) as Hl.
  { repeat constructor. apply (bool_decide_unpack _). vm_compute. exact I. }
  split; [exact Hc |]. split; [exact Hl |].
  exact (get_prediction_for_user_isolation sqrt_approx 130 None
           example_database 7 _ _ Hc Hl).
Defined.

Lemma cycle_create_other_users_witness :
  unique_pks example_database /\ 8%Z <> 7%Z /\
  cycles_of (cycle_create 7 (MkCycleForm 160 None EmptyString)
               example_database) 8
  = cycles_of example_database 8.
Proof.
  assert (8%Z <> 7%Z) as Hne by discriminate.
  split; [exact unique_pks_example_database |]. split; [exact Hne |].
  exact (cycle_create_other_users 7 8 (MkCycleForm 160 None EmptyString)
           example_database unique_pks_example_database Hne).
Defined.

Lemma home_reopen_settles_witness :
  unique_pks example_short_database /\
  home_reopen 7 example_short_database =
    MkDatabase [ MkCycle 1 7 100 None None EmptyString ] [] /\
  home_reopen 7 (home_reopen 7 example_short_database) =
    home_reopen 7 example_short_database.
Proof.
  assert (unique_pks example_short_database) as Hu
    by (apply (bool_decide_unpack _); vm_compute; exact I).
  split; [exact Hu |]. split; [reflexivity |].
  exact (proj1 (proj2 (home_reopen_settles 7 example_short_database Hu))).
Defined.


Lemma create_features_from_history_witness :
  Forall (fun r => row_cycle_length r <> None) example_frame /\
  create_features sqrt_approx example_frame !! 1%nat =
    Some (MkFeatureRow (MkRow 1 28 (Some 30)) 28 28 28 28 2) /\
  history_before (sort_values example_frame) 1 (MkRow 1 28 (Some 30))
    = [28] /\
  prev_cycle_length_1 (MkFeatureRow (MkRow 1 28 (Some 30)) 28 28 28 28 2)
    = Py.index_neg [28] 1.
Proof.
  assert (Forall (fun r => row_cycle_length r <> None) example_frame) as Hn
    by (repeat constructor; discriminate).
  assert (create_features sqrt_approx example_frame !! 1%nat =
            Some (MkFeatureRow (MkRow 1 28 (Some 30)) 28 28 28 28 2)) as Hr
    by (vm_compute; reflexivity).
  split; [exact Hn |]. split; [exact Hr |]. split; [reflexivity |].
  exact (proj1 (create_features_from_history sqrt_approx example_frame 1 _
                  Hn Hr)).
Defined.

Lemma create_features_agrees_witness :
  Forall (fun r => row_cycle_length r <> None) example_frame /\
  create_features sqrt_approx example_frame !! 1%nat =
    Some (MkFeatureRow (MkRow 1 28 (Some 30)) 28 28 28 28 2) /\
  prev_cycle_length_1 (MkFeatureRow (MkRow 1 28 (Some 30)) 28 28 28 28 2)
    = 28.
Proof.
  assert (Forall (fun r => row_cycle_length r <> None) example_frame) as Hn
    by (repeat constructor; discriminate).
  assert (create_features sqrt_approx example_frame !! 1%nat =
            Some (MkFeatureRow (MkRow 1 28 (Some 30)) 28 28 28 28 2)) as Hr
    by (vm_compute; reflexivity).
  split; [exact Hn |]. split; [exact Hr |].
  exact (proj1 (create_features_agrees_with_history_features sqrt_approx
                  example_frame 1 _ Hn Hr)).
Defined.

(** The median fills the gap of a column: 30 between 28, 30 and 31. *)
Example fillna_median_run :
  fillna_median [Some 28; None; Some 30; Some 31] =
    [Some 28; Some 30; Some 30; Some 31].
Proof. reflexivity. Qed.

(** A row without a target is kept for training, with the median of the
    column as its target. *)
Example training_rows_run :
  (fun r => row_cycle_length (source r)) <$>
    training_rows sqrt_approx [MkRow 1 0 (Some 28); MkRow 1 28 None] =
  [Some 28; Some 28].
Proof. vm_compute. reflexivity. Qed.

(** Another user gets a 404 for the cycle 1 of user 7; user 7 deletes it,
    and its daily log goes with it. *)
Example cycle_delete_run :
  cycle_delete 8 1 example_database = None /\
  cycle_delete 7 1 example_database =
    Some (MkDatabase [MkCycle 2 7 128 None None EmptyString] []).
Proof. split; reflexivity. Qed.

(** The cycle statistics and a symptom percentage of the analytics page:
    one log out of one reports cramps. *)
Example analytics_run :
  analytics_cycle_stats 7 example_database = (28 # 1, 28%Z, 28%Z) /\
  analytics_symptom_pct cramps 7 example_database = 100%Z.
Proof. split; vm_compute; reflexivity. Qed.

End Examples.
